(** * News aggregator: adapters, aggregation service and query hooks

    A shallow embedding of
    - [src/types/news.ts]            (the article shapes),
    - [src/services/api.ts]          (the three provider adapters),
    - [src/services/newsService.ts]  ([searchAllNews], [getTopHeadlines]),
    - [src/hooks/useNewsQuery.ts]    ([useMultiSourceNews], [useCombinedNews]),
    - the [PersonalizeDrawer] component  (the preference loader),
    followed by the properties of the specification that concern them. *)

From Stdlib Require Import ZArith Lia Ascii String.
From stdpp Require Import base strings list gmap sorting.

Local Open Scope string_scope.
Local Open Scope list_scope.
Local Open Scope Z_scope.

(** ** JavaScript values used by the code *)

Module JS.

(** An optional string ([string | null | undefined]); [None] stands for
    both [null] and [undefined], which the code never tells apart. *)
Definition truthy (v : option string) : bool :=
  match v with
  | Some (String _ _) => true
  | _ => false
  end.

(** Truthiness of a plain string: every string but the empty one. *)
Definition nonempty (s : string) : bool :=
  match s with
  | EmptyString => false
  | String _ _ => true
  end.

(** [v || d] with a string default. *)
Definition or_default (v : option string) (d : string) : string :=
  match v with
  | Some (String a s) => String a s
  | _ => d
  end.

(** [v || undefined]. *)
Definition or_undefined (v : option string) : option string :=
  if truthy v then v else None.

(** [s.replace(/-/g, '')]. *)
Fixpoint remove_dashes (s : string) : string :=
  match s with
  | EmptyString => EmptyString
  | String c s' =>
      if Ascii.eqb c "-"%char then remove_dashes s'
      else String c (remove_dashes s')
  end.

(** [s.replace(/^By /, '')]. *)
Definition strip_by (s : string) : string :=
  match s with
  | String "B"%char (String "y"%char (String " "%char rest)) => rest
  | _ => s
  end.

(** [xs[0]] on an array. *)
Definition first {A} (xs : list A) : option A := head xs.

(** [Array.prototype.sort(cmp)].  For a consistent comparator ECMAScript
    fixes the result: the elements in comparator order, those that compare
    equal in their original order.  The model is the stable insertion sort,
    which returns that arrangement ([sorted_stable_unique] below: there is
    no other).  A comparator result that is [NaN] ([None] here) is read as
    [+0]; the comparator is then not consistent, ECMAScript leaves the
    order to the implementation, and the model keeps the insertion sort's
    (an engine may arrange such an array otherwise: the model is exact for
    consistent comparators only). *)
Definition sort_key (v : option Z) : Z := default 0 v.

Fixpoint sort_insert {A} (cmp : A → A → option Z) (x : A) (l : list A) : list A :=
  match l with
  | [] => [x]
  | y :: l' =>
      if 0 <? sort_key (cmp x y) then y :: sort_insert cmp x l'
      else x :: y :: l'
  end.

Definition Array_sort {A} (cmp : A → A → option Z) (l : list A) : list A :=
  foldr (sort_insert cmp) [] l.

End JS.

(** ** [src/types/news.ts] *)

Record ArticleSource := { source_id : string; source_name : string }.

Record NewsArticle := {
  id : string;
  source : ArticleSource;
  title : string;
  description : string;
  url : string;
  imageUrl : string;
  publishedAt : string;
  author : option string;
}.

Record NewsApiSource := { api_source_id : option string; api_source_name : string }.

Record NewsApiArticle := {
  api_source : NewsApiSource;
  api_author : option string;
  api_title : string;
  api_description : string;
  api_url : string;
  api_urlToImage : option string;
  api_publishedAt : string;
  api_content : string;
}.

Record NYTMultimedia := { media_url : option string; media_type : string }.

Record NYTArticle := {
  uri : string;
  nyt_title : string;
  nyt_abstract : string;
  nyt_url : string;
  multimedia : option (list NYTMultimedia);
  published_date : string;
  byline : option string;
}.

Record GuardianFields := {
  thumbnail : option string;
  bodyText : option string;
  trailText : option string;
  fields_byline : option string;
}.

Record GuardianArticle := {
  guardian_id : string;
  webTitle : string;
  webUrl : string;
  webPublicationDate : string;
  fields : option GuardianFields;
}.

Record NewsFilters := {
  searchQuery : option string;
  category : option string;
  fromDate : option string;
  toDate : option string;
  author_filter : option string;
}.

(** [NewsSource] is the union ['newsapi' | 'guardian' | 'nytimes']; at run
    time it is a string, and the services keep a [default] branch. *)
Definition NewsSource := string.

(** ** Promises, the transport and the call trace *)

Inductive Error := NetworkError | TypeError | SyntaxError.

Inductive Outcome (A : Type) :=
| Fulfilled (a : A)
| Rejected (e : Error).
Arguments Fulfilled {A} a.
Arguments Rejected {A} e.

Inductive Client := newsApiClient | nytClient | guardianClient.

Record Request := {
  client : Client;
  endpoint : string;
  params : gmap string string;
}.

(** The body of a response, by the envelope the adapters read. *)
Inductive Payload :=
| NewsApiBody (articles : list NewsApiArticle)
| NYTSearchBody (docs : list NYTArticle)
| NYTResultsBody (results : list NYTArticle)
| GuardianBody (results : list GuardianArticle)
| OtherBody.

Inductive HttpResult :=
| HttpError
| HttpOk (data : Payload).

(** The adapter calls an aggregation makes, with their arguments. *)
Inductive AdapterCall :=
| CallNewsApi (query category from to author : option string)
| CallNYT (section searchQuery fromDate toDate : option string)
| CallGuardian (query section from to author : option string).

(** What a run leaves behind: the requests sent, and the adapter calls with
    the way each one settled.  Both are ghost state of the model. *)
Record Trace := {
  requests : list Request;
  calls : list (AdapterCall * Outcome (list NewsArticle));
}.

Definition empty_trace : Trace := {| requests := []; calls := [] |}.

Definition Async (A : Type) : Type := Trace → Outcome A * Trace.

Definition ret {A} (a : A) : Async A := fun t => (Fulfilled a, t).

Definition throw {A} (e : Error) : Async A := fun t => (Rejected e, t).

Definition bind {A B} (m : Async A) (k : A → Async B) : Async B :=
  fun t =>
    match m t with
    | (Fulfilled a, t') => k a t'
    | (Rejected e, t') => (Rejected e, t')
    end.

Definition try_catch {A} (m : Async A) (handler : Error → Async A) : Async A :=
  fun t =>
    match m t with
    | (Fulfilled a, t') => (Fulfilled a, t')
    | (Rejected e, t') => handler e t'
    end.

Notation "'let!' x ':=' 'await' m 'in' k" := (bind m (fun x => k))
  (at level 10, x name, m at level 100, k at level 200).

(** ** [src/services/api.ts]: the provider adapters *)

(** The API keys of [import.meta.env]; a key that is not configured is
    [undefined], and axios leaves an undefined parameter out. *)
Record Env := {
  VITE_NEWS_API_KEY : option string;
  VITE_NY_TIMES_API_KEY : option string;
  VITE_GUARDIAN_API_KEY : option string;
}.

Definition DEFAULT_IMAGE_URL : string :=
  "https://via.placeholder.com/400x200?text=No+Image+Available".

(** [if (v) params[k] = v]. *)
Definition set_if (k : string) (v : option string) (ps : gmap string string)
  : gmap string string :=
  if JS.truthy v then <[k := default "" v]> ps else ps.

(** A parameter given in an object literal; [undefined] is not sent. *)
Definition set_opt (k : string) (v : option string) (ps : gmap string string)
  : gmap string string :=
  match v with
  | Some s => <[k := s]> ps
  | None => ps
  end.

Definition normalizeNewsApi (article : NewsApiArticle) : NewsArticle :=
  {| id := api_url article;
     source := {| source_id := JS.or_default (api_source_id (api_source article)) "unknown";
                  source_name := api_source_name (api_source article) |};
     title := api_title article;
     description := api_description article;
     url := api_url article;
     imageUrl := JS.or_default (api_urlToImage article) DEFAULT_IMAGE_URL;
     publishedAt := api_publishedAt article;
     author := JS.or_undefined (api_author article) |}.

Definition nytKeep (article : NYTArticle) : bool :=
  JS.nonempty (nyt_title article) && JS.nonempty (nyt_abstract article).

Definition normalizeNYT (article : NYTArticle) : NewsArticle :=
  {| id := uri article;
     source := {| source_id := "nyt"; source_name := "New York Times" |};
     title := nyt_title article;
     description := nyt_abstract article;
     url := nyt_url article;
     imageUrl :=
       JS.or_default (m ← (multimedia article ≫= JS.first); media_url m)
                     DEFAULT_IMAGE_URL;
     publishedAt := published_date article;
     author := JS.or_undefined (JS.strip_by <$> byline article) |}.

Definition normalizeGuardian (article : GuardianArticle) : NewsArticle :=
  {| id := guardian_id article;
     source := {| source_id := "guardian"; source_name := "The Guardian" |};
     title := webTitle article;
     description := "";
     url := webUrl article;
     imageUrl := JS.or_default (fields article ≫= thumbnail) DEFAULT_IMAGE_URL;
     publishedAt := webPublicationDate article;
     author := None |}.

Section Adapters.

Context (env : Env).

(** The transport: the answer to the [n]-th request of a run. *)
Context (net : nat → Request → HttpResult).

(** [client.get(endpoint, { params })], awaited: a transport failure
    rejects, any body resolves. *)
Definition http_get (c : Client) (e : string) (ps : gmap string string)
  : Async Payload :=
  fun t =>
    let r := {| client := c; endpoint := e; params := ps |} in
    let t' := {| requests := requests t ++ [r]; calls := calls t |} in
    match net (length (requests t)) r with
    | HttpError => (Rejected NetworkError, t')
    | HttpOk data => (Fulfilled data, t')
    end.

(** Ghost: note the adapter call and the way it settled. *)
Definition invoked (c : AdapterCall) (body : Async (list NewsArticle))
  : Async (list NewsArticle) :=
  fun t =>
    let '(o, t') := body t in
    (o, {| requests := requests t'; calls := calls t' ++ [(c, o)] |}).

Definition fetchNewsApiArticles (query category from to author : option string)
  : Async (list NewsArticle) :=
  invoked (CallNewsApi query category from to author) (
    let params :=
      set_if "author" author (set_if "to" to (set_if "from" from
        (set_if "category" category (set_if "q" query ∅)))) in
    let endpoint := if JS.truthy query then "/everything" else "/top-headlines" in
    let params :=
      if negb (JS.truthy query) && String.eqb endpoint "/top-headlines"
      then <["country" := "us"]> params else params in
    let! data := await http_get newsApiClient endpoint (<["pageSize" := "20"]> params) in
    match data with
    | NewsApiBody articles => ret (normalizeNewsApi <$> articles)
    | _ => throw TypeError
    end).

Definition fetchNYTArticles (section searchQuery fromDate toDate : option string)
  : Async (list NewsArticle) :=
  invoked (CallNYT section searchQuery fromDate toDate) (
    let section := default "all" section in
    let endpoint :=
      if JS.truthy searchQuery then "/search/v2/articlesearch.json"
      else "/content/all/" +:+ section +:+ ".json" in
    let params := set_opt "api-key" (VITE_NY_TIMES_API_KEY env) ∅ in
    let params := set_if "q" searchQuery params in
    let params :=
      if JS.truthy fromDate
      then <["begin_date" := JS.remove_dashes (default "" fromDate)]> params
      else params in
    let params :=
      if JS.truthy toDate
      then <["end_date" := JS.remove_dashes (default "" toDate)]> params
      else params in
    let! data := await http_get nytClient endpoint params in
    let articles :=
      if JS.truthy searchQuery
      then match data with NYTSearchBody docs => Some docs | _ => None end
      else match data with NYTResultsBody results => Some results | _ => None end in
    match articles with
    | Some articles => ret (normalizeNYT <$> filter (λ a, nytKeep a = true) articles)
    | None => throw TypeError
    end).

Definition fetchGuardianArticles (query section from to author : option string)
  : Async (list NewsArticle) :=
  invoked (CallGuardian query section from to author) (
    let params :=
      <["show-fields" := "thumbnail"]>
        (set_opt "api-key" (VITE_GUARDIAN_API_KEY env) ∅) in
    let params :=
      set_if "author" author (set_if "to-date" to (set_if "from-date" from
        (set_if "section" section (set_if "q" query params)))) in
    let! data := await http_get guardianClient "/search" params in
    match data with
    | GuardianBody results => ret (normalizeGuardian <$> results)
    | _ => throw TypeError
    end).

End Adapters.

(** ** [src/services/newsService.ts]: the aggregation service *)

(** [Promise.all] over promises that are already running: the callbacks of
    [sources.map] start in the order of [sources], each sends its request
    before it first suspends, and the results come back by position.  A
    rejection of one promise rejects the whole (the first one by position
    here; the service never produces one). *)
Fixpoint Promise_all {A} (ps : list (Async A)) : Async (list A) :=
  match ps with
  | [] => ret []
  | p :: ps' =>
      fun t =>
        let '(o, t1) := p t in
        let '(os, t2) := Promise_all ps' t1 in
        (match o, os with
         | Fulfilled x, Fulfilled xs => Fulfilled (x :: xs)
         | Rejected e, _ => Rejected e
         | Fulfilled _, Rejected e => Rejected e
         end, t2)
  end.

Section Service.

Context (env : Env).
Context (net : nat → Request → HttpResult).

(** [new Date(s).getTime()]: the time value of a date string, [None] when
    the string is no date ([NaN]). *)
Context (getTime : string → option Z).

(** The comparator of both sorts,
    [new Date(b.publishedAt).getTime() - new Date(a.publishedAt).getTime()];
    [NaN] when either side is. *)
Definition compareByDate (a b : NewsArticle) : option Z :=
  tb ← getTime (publishedAt b);
  ta ← getTime (publishedAt a);
  Some (tb - ta).

(** The callback of [sources.map] in [searchAllNews]. *)
Definition searchBranch (filters : NewsFilters) (src : NewsSource)
  : Async (list NewsArticle) :=
  try_catch
    (if String.eqb src "nytimes" && JS.truthy (searchQuery filters) then ret []
     else if String.eqb src "guardian" then
       fetchGuardianArticles env net
         (searchQuery filters) (category filters)
         (fromDate filters) (toDate filters) (author_filter filters)
     else if String.eqb src "nytimes" then
       fetchNYTArticles env net
         (Some (JS.or_default (category filters) "all")) None None None
     else if String.eqb src "newsapi" then
       fetchNewsApiArticles net
         (searchQuery filters) (category filters)
         (fromDate filters) (toDate filters) (author_filter filters)
     else ret [])
    (fun _ => ret []).

Definition searchAllNews (sources : list NewsSource) (filters : NewsFilters)
  : Async (list NewsArticle) :=
  try_catch
    (let searchPromises := searchBranch filters <$> sources in
     let! results := await Promise_all searchPromises in
     let allArticles := concat results in
     ret (JS.Array_sort compareByDate allArticles))
    (fun error => throw error).

(** The callback of [sources.map] in [getTopHeadlines]. *)
Definition headlinesBranch (category : option string) (src : NewsSource)
  : Async (list NewsArticle) :=
  try_catch
    (if String.eqb src "guardian" then
       fetchGuardianArticles env net None category None None None
     else if String.eqb src "nytimes" then
       fetchNYTArticles env net (Some (JS.or_default category "all")) None None None
     else if String.eqb src "newsapi" then
       fetchNewsApiArticles net None category None None None
     else ret [])
    (fun _ => ret []).

Definition getTopHeadlines (sources : list NewsSource) (category : option string)
  : Async (list NewsArticle) :=
  try_catch
    (let searchPromises := headlinesBranch category <$> sources in
     let! results := await Promise_all searchPromises in
     let allArticles := concat results in
     ret (JS.Array_sort compareByDate allArticles))
    (fun error => throw error).

(** ** [src/hooks/useNewsQuery.ts] *)

(** [a || b] on optional strings. *)
Definition js_or (a b : option string) : option string :=
  if JS.truthy a then a else b.

Definition isSearching (filters : NewsFilters) : bool :=
  JS.truthy (js_or (js_or (searchQuery filters) (fromDate filters)) (toDate filters)).

Definition queryFn (sources : list NewsSource) (filters : NewsFilters)
  : Async (list NewsArticle) :=
  if isSearching filters then searchAllNews sources filters
  else getTopHeadlines sources (category filters).

(** What [useQuery] hands to the component. *)
Record QueryResult := {
  data : option (list NewsArticle);
  query_isLoading : bool;
  query_isError : bool;
  query_error : option Error;
}.

(** [useQuery]: before the fetch of the current key has settled there is no
    data; afterwards the result is the one of [queryFn], run from the trace
    [t].  The cache (key, freshness window) decides only whether a fetch is
    made, not what it returns. *)
Definition useQuery (fn : Async (list NewsArticle)) (settled : bool) (t : Trace)
  : QueryResult :=
  if settled then
    match fst (fn t) with
    | Fulfilled d =>
        {| data := Some d; query_isLoading := false;
           query_isError := false; query_error := None |}
    | Rejected e =>
        {| data := None; query_isLoading := false;
           query_isError := true; query_error := Some e |}
    end
  else
    {| data := None; query_isLoading := true;
       query_isError := false; query_error := None |}.

Definition useMultiSourceNews (sources : list NewsSource) (filters : NewsFilters)
  : bool → Trace → QueryResult :=
  useQuery (queryFn sources filters).

Record CombinedNews := {
  articles : list NewsArticle;
  isLoading : bool;
  isError : bool;
  error : option Error;
  failedSources : list NewsSource;
  hasPartialData : bool;
}.

(** The two derived fields of [useCombinedNews], from the article list. *)
Definition failedSourcesOf (sources : list NewsSource) (articles : list NewsArticle)
  : list NewsSource :=
  filter (λ src,
    let sourceArticles := filter (λ article, source_id (source article) = src) articles in
    length sourceArticles = 0%nat) sources.

Definition hasPartialDataOf (sources : list NewsSource) (articles : list NewsArticle)
  : bool :=
  bool_decide (0 < length articles)%nat
  && bool_decide (length (failedSourcesOf sources articles) < length sources)%nat.

Definition useCombinedNews (sources : list NewsSource) (filters : NewsFilters)
  (settled : bool) (t : Trace) : CombinedNews :=
  let q := useMultiSourceNews sources filters settled t in
  let articles := default [] (data q) in
  {| articles := articles;
     isLoading := query_isLoading q;
     isError := query_isError q;
     error := query_error q;
     failedSources := failedSourcesOf sources articles;
     hasPartialData := hasPartialDataOf sources articles |}.

End Service.

(** ** [Promise.all], by the order in which the promises settle *)

(** The bookkeeping of one [Promise.all] call: a slot per promise, the
    count of promises still pending, and the value the combined promise
    resolved with, once it has. *)
Record AllState (A : Type) := {
  values : list (option A);
  remaining : nat;
  resolved : option (list A);
}.
Arguments values {A} _.
Arguments remaining {A} _.
Arguments resolved {A} _.

Definition all_init {A} (n : nat) : AllState A :=
  {| values := replicate n None;
     remaining := n;
     resolved := if decide (n = 0%nat) then Some [] else None |}.

(** The resolve-element function of the promise at [index]: it runs once,
    stores the value in its slot, and resolves the whole when no promise is
    left pending. *)
Definition all_settle {A} (st : AllState A) (index : nat) (x : A) : AllState A :=
  match values st !! index with
  | Some None =>
      let values' := <[index := Some x]> (values st) in
      let remaining' := pred (remaining st) in
      {| values := values';
         remaining := remaining';
         resolved :=
           if decide (remaining' = 0%nat) then mapM (λ v, v) values'
           else resolved st |}
  | _ => st
  end.

(** The promises fulfil with [results] (by position), in the order
    [order] (a list of positions). *)
Definition Promise_all_settle {A} (results : list A) (order : list nat)
  : option (list A) :=
  resolved
    (foldl (λ st index,
              match results !! index with
              | Some x => all_settle st index x
              | None => st
              end)
           (all_init (length results)) order).

(** The tail of both services once the per-source promises have settled
    in the order [order]. *)
Definition mergeSettled (getTime : string → option Z)
  (results : list (list NewsArticle)) (order : list nat)
  : option (list NewsArticle) :=
  allResults ← Promise_all_settle results order;
  Some (JS.Array_sort (compareByDate getTime) (concat allResults)).

(** ** [src/components/PersonalizeDrawer.tsx]: loading the preferences *)

(** The values [JSON.parse] returns.  A number is kept as an integer: the
    loader looks at a number only for its truthiness. *)
#[local] Set Warnings "-register-all".
Inductive JSON :=
| JNull
| JBool (b : bool)
| JNumber (n : Z)
| JString (s : string)
| JArray (xs : list JSON)
| JObject (props : gmap string JSON).

Definition json_truthy (v : JSON) : bool :=
  match v with
  | JNull => false
  | JBool b => b
  | JNumber n => negb (n =? 0)
  | JString s => JS.nonempty s
  | JArray _ | JObject _ => true
  end.

(** [xs[0] || ""]. *)
Definition first_or_empty (xs : list JSON) : JSON :=
  match JS.first xs with
  | Some v => if json_truthy v then v else JString ""
  | None => JString ""
  end.

(** The migration of the old preference format.  Reading a property of
    [null] throws; a value that is no object has no [authors]. *)
Definition migrate (parsed : JSON) : Outcome JSON :=
  match parsed with
  | JNull => Rejected TypeError
  | JObject props =>
      match props !! "authors" with
      | Some (JArray xs) =>
          Fulfilled
            (JObject (delete "authors" (<["authorFilter" := first_or_empty xs]> props)))
      | _ => Fulfilled parsed
      end
  | _ => Fulfilled parsed
  end.

Record DrawerState := {
  preferences : JSON;
  applyImmediately : JSON;
}.

Section Drawer.

(** [JSON.parse]; [None] when it throws. *)
Context (JSON_parse : string → option JSON).

(** The effect that runs when [isOpen] changes. *)
Definition loadPreferences (isOpen : bool) (localStorage : gmap string string)
  (st : DrawerState) : Outcome DrawerState :=
  if isOpen then
    let loaded :=
      match localStorage !! "newsHubPreferences" with
      | Some (String c s) =>
          match JSON_parse (String c s) with
          | Some parsed =>
              match migrate parsed with
              | Fulfilled parsed' =>
                  Fulfilled {| preferences := parsed';
                               applyImmediately := applyImmediately st |}
              | Rejected e => Rejected e
              end
          | None => Rejected SyntaxError
          end
      | _ => Fulfilled st
      end in
    match loaded with
    | Fulfilled st' =>
        match localStorage !! "applyImmediately" with
        | Some (String c s) =>
            match JSON_parse (String c s) with
            | Some flag =>
                Fulfilled {| preferences := preferences st';
                             applyImmediately := flag |}
            | None => Rejected SyntaxError
            end
        | _ => Fulfilled st'
        end
    | Rejected e => Rejected e
    end
  else Fulfilled st.

End Drawer.

(** ** Articles the adapters produce *)

(** [x] is an article of a fulfilled call of the adapter of client [c]. *)
Inductive produced (env : Env) (net : nat → Request → HttpResult)
  : Client → NewsArticle → Prop :=
| produced_newsapi q c f t a tr l x :
    fst (fetchNewsApiArticles net q c f t a tr) = Fulfilled l →
    x ∈ l → produced env net newsApiClient x
| produced_nyt s q f t tr l x :
    fst (fetchNYTArticles env net s q f t tr) = Fulfilled l →
    x ∈ l → produced env net nytClient x
| produced_guardian q s f t a tr l x :
    fst (fetchGuardianArticles env net q s f t a tr) = Fulfilled l →
    x ∈ l → produced env net guardianClient x.

(** The invariant the specification asks of every article. *)
Definition wellFormed (x : NewsArticle) : Prop :=
  id x ≠ "" ∧ title x ≠ "" ∧ url x ≠ "" ∧ publishedAt x ≠ "" ∧ imageUrl x ≠ "".

(** The upstream record an article was normalised from. *)
Definition normalisedFrom (c : Client) (x : NewsArticle) : Prop :=
  match c with
  | newsApiClient => ∃ raw, x = normalizeNewsApi raw
  | nytClient => ∃ raw, nytKeep raw = true ∧ x = normalizeNYT raw
  | guardianClient => ∃ raw, x = normalizeGuardian raw
  end.

(** ** The adapters, run *)

Section AdapterRuns.

Context (env : Env) (net : nat → Request → HttpResult).



Lemma invoked_run c body tr :
  invoked c body tr =
    (fst (body tr),
     {| requests := requests (snd (body tr));
        calls := calls (snd (body tr)) ++ [(c, fst (body tr))] |}).
Proof. unfold invoked. by destruct (body tr). Qed.

(** Every adapter sends one request and notes one call. *)
Definition oneCall (c : AdapterCall) (m : Async (list NewsArticle)) : Prop :=
  ∀ tr, ∃ r,
    snd (m tr) =
      {| requests := requests tr ++ [r];
         calls := calls tr ++ [(c, fst (m tr))] |}.

Lemma fetchNewsApiArticles_oneCall q c f t a :
  oneCall (CallNewsApi q c f t a) (fetchNewsApiArticles net q c f t a).
Proof.
  intros tr. unfold fetchNewsApiArticles. rewrite invoked_run.
  unfold bind, http_get; simpl.
  eexists. destruct (net _ _) as [|[]]; simpl; reflexivity.
Qed.

Lemma fetchNYTArticles_oneCall s q f t :
  oneCall (CallNYT s q f t) (fetchNYTArticles env net s q f t).
Proof.
  intros tr. unfold fetchNYTArticles. rewrite invoked_run.
  unfold bind, http_get.
  destruct (JS.truthy q); eexists; cbv zeta;
    destruct (net _ _) as [|[]]; reflexivity.
Qed.

Lemma fetchGuardianArticles_oneCall q s f t a :
  oneCall (CallGuardian q s f t a) (fetchGuardianArticles env net q s f t a).
Proof.
  intros tr. unfold fetchGuardianArticles. rewrite invoked_run.
  unfold bind, http_get; simpl.
  eexists. destruct (net _ _) as [|[]]; simpl; reflexivity.
Qed.

Lemma fetchNewsApiArticles_fulfilled q c f t a tr l :
  fst (fetchNewsApiArticles net q c f t a tr) = Fulfilled l →
  ∃ raws, l = normalizeNewsApi <$> raws.
Proof.
  unfold fetchNewsApiArticles. rewrite invoked_run.
  unfold bind, http_get; simpl.
  destruct (net _ _) as [|[]]; simpl; intros [= <-]; eauto.
Qed.

Lemma fetchNYTArticles_fulfilled s q f t tr l :
  fst (fetchNYTArticles env net s q f t tr) = Fulfilled l →
  ∃ raws, l = normalizeNYT <$> filter (λ a, nytKeep a = true) raws.
Proof.
  unfold fetchNYTArticles. rewrite invoked_run.
  unfold bind, http_get; simpl.
  destruct (net _ _) as [|[]]; simpl; destruct (JS.truthy q); simpl;
    intros [= <-]; eauto.
Qed.

Lemma fetchGuardianArticles_fulfilled q s f t a tr l :
  fst (fetchGuardianArticles env net q s f t a tr) = Fulfilled l →
  ∃ raws, l = normalizeGuardian <$> raws.
Proof.
  unfold fetchGuardianArticles. rewrite invoked_run.
  unfold bind, http_get; simpl.
  destruct (net _ _) as [|[]]; simpl; intros [= <-]; eauto.
Qed.

Lemma produced_normalisedFrom c x : produced env net c x → normalisedFrom c x.
Proof.
  destruct 1 as [q c f t a tr l x Hl Hx|s q f t tr l x Hl Hx|q s f t a tr l x Hl Hx].
  - apply fetchNewsApiArticles_fulfilled in Hl as [raws ->].
    apply list_elem_of_fmap in Hx as (raw & -> & _). by exists raw.
  - apply fetchNYTArticles_fulfilled in Hl as [raws ->].
    apply list_elem_of_fmap in Hx as (raw & -> & Hraw).
    apply list_elem_of_filter in Hraw as [Hkeep _]. by exists raw.
  - apply fetchGuardianArticles_fulfilled in Hl as [raws ->].
    apply list_elem_of_fmap in Hx as (raw & -> & _). by exists raw.
Qed.

End AdapterRuns.

(** ** [Array.prototype.flat] *)

Lemma elem_of_concat {A} (x : A) (ls : list (list A)) :
  x ∈ concat ls ↔ ∃ l, l ∈ ls ∧ x ∈ l.
Proof.
  induction ls as [|l ls IH]; simpl.
  - split; [by intros ?%elem_of_nil | by intros (l & ?%elem_of_nil & _)].
  - rewrite elem_of_app, IH. split.
    + intros [Hx|(l' & Hl' & Hx)]; [exists l | exists l']; split; try done;
        by constructor.
    + intros (l' & [->|Hl']%elem_of_cons & Hx); [by left | right; eauto].
Qed.

Lemma concat_all_nil {A} (ls : list (list A)) :
  Forall (λ l, l = []) ls → concat ls = [].
Proof. induction 1 as [|l ls -> _ IH]; simpl; done. Qed.

(** ** [Array.prototype.sort] *)

Section ArraySort.

Context {A : Type}.

Lemma sort_insert_perm (cmp : A → A → option Z) x l :
  JS.sort_insert cmp x l ≡ₚ x :: l.
Proof.
  induction l as [|y l IH]; simpl; [done|].
  destruct (0 <? _); [|done].
  rewrite IH. apply Permutation_swap.
Qed.

Lemma Array_sort_perm (cmp : A → A → option Z) l : JS.Array_sort cmp l ≡ₚ l.
Proof.
  induction l as [|x l IH]; simpl; [done|].
  rewrite sort_insert_perm. by rewrite IH.
Qed.

Lemma Array_sort_length (cmp : A → A → option Z) l :
  length (JS.Array_sort cmp l) = length l.
Proof. by rewrite Array_sort_perm. Qed.

(** Only the comparisons between elements of the array matter. *)
Lemma sort_insert_ext (cmp cmp' : A → A → option Z) x l :
  Forall (λ y, cmp x y = cmp' x y) l →
  JS.sort_insert cmp x l = JS.sort_insert cmp' x l.
Proof.
  induction 1 as [|y l Hy _ IH]; simpl; [done|].
  by rewrite Hy, IH.
Qed.

Lemma Array_sort_ext (cmp cmp' : A → A → option Z) l :
  (∀ x y, x ∈ l → y ∈ l → cmp x y = cmp' x y) →
  JS.Array_sort cmp l = JS.Array_sort cmp' l.
Proof.
  induction l as [|x l IH]; intros Hext; simpl; [done|].
  rewrite IH by (intros; apply Hext; by constructor).
  apply sort_insert_ext, Forall_forall. intros y Hy. apply Hext.
  - constructor.
  - constructor. by rewrite <- (Array_sort_perm cmp' l).
Qed.

(** A comparator that subtracts keys: [cmp a b = key b - key a], so the
    larger key sorts first. *)
Context (key : A → Z).

Definition byKeyDesc (a b : A) : option Z := Some (key b - key a).

Definition keyDesc (a b : A) : Prop := key b ≤ key a.

Lemma sort_insert_sorted x l :
  StronglySorted keyDesc l → StronglySorted keyDesc (JS.sort_insert byKeyDesc x l).
Proof.
  induction 1 as [|y l Hl IH Hy]; simpl.
  - repeat constructor.
  - destruct (0 <? _) eqn:Hlt; simpl in Hlt.
    + apply Z.ltb_lt in Hlt. constructor; [done|].
      rewrite sort_insert_perm. constructor; [unfold keyDesc; lia | done].
    + apply Z.ltb_ge in Hlt. constructor; [by constructor|].
      constructor; [unfold keyDesc; lia|].
      eapply Forall_impl; [exact Hy|]. unfold keyDesc. intros; simpl in *; lia.
Qed.

Lemma Array_sort_sorted l : StronglySorted keyDesc (JS.Array_sort byKeyDesc l).
Proof.
  induction l as [|x l IH]; simpl; [constructor|].
  by apply sort_insert_sorted.
Qed.

Lemma sort_insert_stable k x l :
  filter (λ a, key a = k) (JS.sort_insert byKeyDesc x l)
  = filter (λ a, key a = k) (x :: l).
Proof.
  induction l as [|y l IH]; simpl; [done|].
  destruct (0 <? _) eqn:Hlt; simpl in Hlt; [|done].
  apply Z.ltb_lt in Hlt.
  rewrite (filter_cons _ y), IH, !filter_cons.
  repeat case_decide; try done; lia.
Qed.

Lemma Array_sort_stable k l :
  filter (λ a, key a = k) (JS.Array_sort byKeyDesc l) = filter (λ a, key a = k) l.
Proof.
  induction l as [|x l IH]; simpl; [done|].
  rewrite sort_insert_stable, !filter_cons, IH. done.
Qed.

(** Sorted and stable leaves one arrangement: the sort's. *)
Lemma sorted_stable_unique l1 l2 :
  StronglySorted keyDesc l1 →
  StronglySorted keyDesc l2 →
  (∀ k, filter (λ a, key a = k) l1 = filter (λ a, key a = k) l2) →
  l1 = l2.
Proof.
  intros Hs1. revert l2.
  induction Hs1 as [|x l1 Hs1 IH Hx]; intros l2 Hs2 Hf.
  - destruct l2 as [|y l2]; [done|].
    specialize (Hf (key y)). rewrite filter_cons in Hf. by case_decide.
  - destruct l2 as [|y l2].
    { specialize (Hf (key x)). rewrite filter_cons in Hf. by case_decide. }
    apply StronglySorted_cons in Hs2 as [Hy Hs2].
    assert (key x = key y) as Hk.
    { assert (x ∈ y :: l2) as Hxin.
      { eapply (list_elem_of_filter (λ a, key a = key x)).
        rewrite <- Hf, filter_cons. case_decide; [constructor | done]. }
      assert (y ∈ x :: l1) as Hyin.
      { eapply (list_elem_of_filter (λ a, key a = key y)).
        rewrite Hf, filter_cons. case_decide; [constructor | done]. }
      apply elem_of_cons in Hxin as [->|Hxin]; [done|].
      apply elem_of_cons in Hyin as [->|Hyin]; [done|].
      rewrite Forall_forall in Hx, Hy.
      specialize (Hx _ Hyin). specialize (Hy _ Hxin). unfold keyDesc in *. lia. }
    pose proof (Hf (key x)) as Hfx. rewrite !filter_cons in Hfx.
    rewrite !decide_True in Hfx by done.
    injection Hfx as -> Hfx. f_equal. apply IH; [done|].
    intros k. specialize (Hf k). rewrite !filter_cons in Hf.
    case_decide; [|done]. by injection Hf.
Qed.

End ArraySort.

(** ** The aggregation, run *)

(** What a settled adapter call adds to the merged list. *)
Definition contribution (o : Outcome (list NewsArticle)) : list NewsArticle :=
  match o with
  | Fulfilled l => l
  | Rejected _ => []
  end.


Section ServiceRuns.

Context (env : Env) (net : nat → Request → HttpResult).

(** The adapter call a branch of [searchAllNews] makes, if any. *)
Definition searchCallOf (filters : NewsFilters) (src : NewsSource)
  : option AdapterCall :=
  if String.eqb src "nytimes" && JS.truthy (searchQuery filters) then None
  else if String.eqb src "guardian" then
    Some (CallGuardian (searchQuery filters) (category filters)
            (fromDate filters) (toDate filters) (author_filter filters))
  else if String.eqb src "nytimes" then
    Some (CallNYT (Some (JS.or_default (category filters) "all")) None None None)
  else if String.eqb src "newsapi" then
    Some (CallNewsApi (searchQuery filters) (category filters)
            (fromDate filters) (toDate filters) (author_filter filters))
  else None.

(** The adapter call a branch of [getTopHeadlines] makes, if any. *)
Definition headlinesCallOf (category : option string) (src : NewsSource)
  : option AdapterCall :=
  if String.eqb src "guardian" then Some (CallGuardian None category None None None)
  else if String.eqb src "nytimes" then
    Some (CallNYT (Some (JS.or_default category "all")) None None None)
  else if String.eqb src "newsapi" then Some (CallNewsApi None category None None None)
  else None.

Definition fromAdapters (cs : list (AdapterCall * Outcome (list NewsArticle))) : Prop :=
  Forall (λ co, ∀ l x, co.2 = Fulfilled l → x ∈ l → ∃ cl, produced env net cl x) cs.

(** A branch never rejects; it makes the call [call] (or none) and
    returns what that call contributes. *)
Definition branchSpec (call : option AdapterCall) (m : Async (list NewsArticle))
  : Prop :=
  ∀ tr, ∃ rs cs,
    snd (m tr) = {| requests := requests tr ++ rs; calls := calls tr ++ cs |}
    ∧ cs.*1 = option_list call
    ∧ fst (m tr) = Fulfilled (concat (contribution <$> cs.*2))
    ∧ fromAdapters cs.

Lemma try_catch_ret_nil (m : Async (list NewsArticle)) tr :
  try_catch m (λ _, ret []) tr = (Fulfilled (contribution (fst (m tr))), snd (m tr)).
Proof. unfold try_catch. by destruct (m tr) as [[l|e] tr']. Qed.

Lemma branchSpec_none : branchSpec None (try_catch (ret []) (λ _, ret [])).
Proof.
  intros tr. exists [], []. rewrite try_catch_ret_nil. simpl.
  rewrite !app_nil_r. destruct tr; repeat split; constructor.
Qed.

Lemma branchSpec_call c m :
  oneCall c m →
  (∀ tr l x, fst (m tr) = Fulfilled l → x ∈ l → ∃ cl, produced env net cl x) →
  branchSpec (Some c) (try_catch m (λ _, ret [])).
Proof.
  intros Hone Hprod tr. destruct (Hone tr) as [r Hr].
  exists [r], [(c, fst (m tr))]. rewrite try_catch_ret_nil. simpl.
  rewrite app_nil_r. repeat split; [done|].
  constructor; [|constructor]. simpl. intros l x. apply Hprod.
Qed.

Lemma fetchNewsApiArticles_branch q c f t a :
  branchSpec (Some (CallNewsApi q c f t a))
    (try_catch (fetchNewsApiArticles net q c f t a) (λ _, ret [])).
Proof.
  apply branchSpec_call; [apply fetchNewsApiArticles_oneCall|].
  intros tr l x Hl Hx. exists newsApiClient. by econstructor.
Qed.

Lemma fetchNYTArticles_branch s q f t :
  branchSpec (Some (CallNYT s q f t))
    (try_catch (fetchNYTArticles env net s q f t) (λ _, ret [])).
Proof.
  apply branchSpec_call; [apply fetchNYTArticles_oneCall|].
  intros tr l x Hl Hx. exists nytClient. by econstructor.
Qed.

Lemma fetchGuardianArticles_branch q s f t a :
  branchSpec (Some (CallGuardian q s f t a))
    (try_catch (fetchGuardianArticles env net q s f t a) (λ _, ret [])).
Proof.
  apply branchSpec_call; [apply fetchGuardianArticles_oneCall|].
  intros tr l x Hl Hx. exists guardianClient. by econstructor.
Qed.

Lemma searchBranch_spec filters src :
  branchSpec (searchCallOf filters src) (searchBranch env net filters src).
Proof.
  unfold searchCallOf, searchBranch.
  destruct (String.eqb src "nytimes" && JS.truthy (searchQuery filters));
    [apply branchSpec_none|].
  destruct (String.eqb src "guardian"); [apply fetchGuardianArticles_branch|].
  destruct (String.eqb src "nytimes"); [apply fetchNYTArticles_branch|].
  destruct (String.eqb src "newsapi"); [apply fetchNewsApiArticles_branch|].
  apply branchSpec_none.
Qed.

Lemma headlinesBranch_spec category src :
  branchSpec (headlinesCallOf category src) (headlinesBranch env net category src).
Proof.
  unfold headlinesCallOf, headlinesBranch.
  destruct (String.eqb src "guardian"); [apply fetchGuardianArticles_branch|].
  destruct (String.eqb src "nytimes"); [apply fetchNYTArticles_branch|].
  destruct (String.eqb src "newsapi"); [apply fetchNewsApiArticles_branch|].
  apply branchSpec_none.
Qed.

(** The run of all branches: the results by position, the calls in the
    order of [sources]. *)
Definition allSpec (callOf : NewsSource → option AdapterCall)
  (sources : list NewsSource) (tr : Trace)
  (run : Outcome (list (list NewsArticle)) * Trace)
  (results : list (list NewsArticle))
  (cs : list (AdapterCall * Outcome (list NewsArticle))) : Prop :=
  fst run = Fulfilled results
  ∧ (∃ rs, snd run = {| requests := requests tr ++ rs; calls := calls tr ++ cs |})
  ∧ cs.*1 = omap callOf sources
  ∧ concat results = concat (contribution <$> cs.*2)
  ∧ Forall2 (λ src r, callOf src = None → r = []) sources results
  ∧ fromAdapters cs.

Lemma Promise_all_spec (branch : NewsSource → Async (list NewsArticle)) callOf :
  (∀ src, branchSpec (callOf src) (branch src)) →
  ∀ sources tr, ∃ results cs,
    allSpec callOf sources tr (Promise_all (branch <$> sources) tr) results cs.
Proof.
  intros Hbranch sources.
  induction sources as [|src sources IH]; intros tr.
  - exists [], []. unfold allSpec; simpl. repeat split; try constructor.
    exists []. destruct tr; simpl. by rewrite !app_nil_r.
  - destruct (Hbranch src tr) as (rs1 & cs1 & Htr1 & Hcall1 & Hres1 & Hfrom1).
    simpl. destruct (branch src tr) as [o1 tr1]. simpl in *. subst o1 tr1.
    match goal with |- context [Promise_all _ ?t] => destruct (IH t) as
        (results & cs & Hfst & (rs & Hsnd) & Hcalls & Hconcat & Hpos & Hfrom) end.
    destruct (Promise_all _ _) as [os tr2]. simpl in *. subst os tr2.
    exists (concat (contribution <$> cs1.*2) :: results), (cs1 ++ cs).
    unfold allSpec; simpl. repeat split.
    + exists (rs1 ++ rs). by rewrite !app_assoc.
    + rewrite fmap_app, Hcall1, Hcalls. by destruct (callOf src).
    + rewrite !fmap_app, concat_app. by rewrite Hconcat.
    + constructor; [|done]. intros Hnone. rewrite Hnone in Hcall1.
      by apply fmap_nil_inv in Hcall1 as ->.
    + by apply Forall_app.
Qed.

End ServiceRuns.

Section ServiceResults.

Context (env : Env) (net : nat → Request → HttpResult) (getTime : string → option Z).

Lemma searchAllNews_run sources filters tr :
  ∃ results cs,
    allSpec env net (searchCallOf filters) sources tr
      (Promise_all (searchBranch env net filters <$> sources) tr) results cs
    ∧ fst (searchAllNews env net getTime sources filters tr)
      = Fulfilled (JS.Array_sort (compareByDate getTime) (concat results))
    ∧ calls (snd (searchAllNews env net getTime sources filters tr)) = calls tr ++ cs.
Proof.
  destruct (Promise_all_spec env net _ _ (searchBranch_spec env net filters) sources tr)
    as (results & cs & Hspec).
  exists results, cs. split; [done|].
  destruct Hspec as (Hfst & (rs & Hsnd) & _).
  unfold searchAllNews, try_catch, bind.
  destruct (Promise_all _ _) as [o tr']. simpl in *. by subst.
Qed.

Lemma getTopHeadlines_run sources category tr :
  ∃ results cs,
    allSpec env net (headlinesCallOf category) sources tr
      (Promise_all (headlinesBranch env net category <$> sources) tr) results cs
    ∧ fst (getTopHeadlines env net getTime sources category tr)
      = Fulfilled (JS.Array_sort (compareByDate getTime) (concat results))
    ∧ calls (snd (getTopHeadlines env net getTime sources category tr)) = calls tr ++ cs.
Proof.
  destruct (Promise_all_spec env net _ _ (headlinesBranch_spec env net category) sources tr)
    as (results & cs & Hspec).
  exists results, cs. split; [done|].
  destruct Hspec as (Hfst & (rs & Hsnd) & _).
  unfold getTopHeadlines, try_catch, bind.
  destruct (Promise_all _ _) as [o tr']. simpl in *. by subst.
Qed.

(** Whichever service [queryFn] picks: the merged list is the sort of what
    the adapter calls of the run contributed. *)
Lemma queryFn_run sources filters tr :
  ∃ cs,
    calls (snd (queryFn env net getTime sources filters tr)) = calls tr ++ cs
    ∧ fst (queryFn env net getTime sources filters tr)
      = Fulfilled (JS.Array_sort (compareByDate getTime) (concat (contribution <$> cs.*2)))
    ∧ fromAdapters env net cs.
Proof.
  unfold queryFn. destruct (isSearching filters).
  - destruct (searchAllNews_run sources filters tr)
      as (results & cs & (_ & _ & _ & Hconcat & _ & Hfrom) & Hfst & Hcalls).
    exists cs. by rewrite Hfst, Hcalls, Hconcat.
  - destruct (getTopHeadlines_run sources (category filters) tr)
      as (results & cs & (_ & _ & _ & Hconcat & _ & Hfrom) & Hfst & Hcalls).
    exists cs. by rewrite Hfst, Hcalls, Hconcat.
Qed.

(** The articles [useCombinedNews] shows all come from adapter calls. *)
Lemma useCombinedNews_articles sources filters settled tr x :
  x ∈ articles (useCombinedNews env net getTime sources filters settled tr) →
  ∃ cl, produced env net cl x.
Proof.
  unfold useCombinedNews, useMultiSourceNews, useQuery; simpl.
  destruct settled; simpl; [|by intros ?%elem_of_nil].
  destruct (queryFn_run sources filters tr) as (cs & _ & Hfst & Hfrom).
  rewrite Hfst; simpl. rewrite Array_sort_perm.
  intros (l & Hl & Hx)%elem_of_concat.
  apply list_elem_of_fmap in Hl as (o & -> & Ho).
  apply list_elem_of_fmap in Ho as ([c o'] & -> & Hco).
  unfold fromAdapters in Hfrom. rewrite Forall_forall in Hfrom.
  destruct o' as [l|e]; simpl in Hx; [|by apply elem_of_nil in Hx].
  by apply (Hfrom _ Hco l x).
Qed.

End ServiceResults.

(** ** Sample responses *)

Definition sampleEnv : Env :=
  {| VITE_NEWS_API_KEY := Some "news-key";
     VITE_NY_TIMES_API_KEY := Some "nyt-key";
     VITE_GUARDIAN_API_KEY := Some "guardian-key" |}.

(** A transport that answers by client alone. *)
Definition netOf (newsapi nyt guardian : HttpResult) : nat → Request → HttpResult :=
  λ _ r,
    match client r with
    | newsApiClient => newsapi
    | nytClient => nyt
    | guardianClient => guardian
    end.

(** The time values of the dates the samples use; any other string of the
    samples is no date. *)
Definition sampleTime (s : string) : option Z :=
  if String.eqb s "2024-01-01T00:00:00Z" then Some 1704067200000
  else if String.eqb s "2024-01-02T00:00:00Z" then Some 1704153600000
  else None.

Definition guardianRaw (ident date : string) : GuardianArticle :=
  {| guardian_id := ident;
     webTitle := "Guardian headline";
     webUrl := "https://www.theguardian.com/" +:+ ident;
     webPublicationDate := date;
     fields := Some {| thumbnail := None;
                       bodyText := Some "Body text";
                       trailText := Some "Trail text";
                       fields_byline := Some "Jane Doe" |} |}.

Definition newsApiRaw (sid : option string) (link date : string) : NewsApiArticle :=
  {| api_source := {| api_source_id := sid; api_source_name := "Wire" |};
     api_author := Some "John Roe";
     api_title := "NewsAPI headline";
     api_description := "Summary";
     api_url := link;
     api_urlToImage := None;
     api_publishedAt := date;
     api_content := "Content" |}.

Definition nytRaw (ident date : string) : NYTArticle :=
  {| uri := ident;
     nyt_title := "NYT headline";
     nyt_abstract := "Abstract";
     nyt_url := "https://www.nytimes.com/" +:+ ident;
     multimedia := Some [];
     published_date := date;
     byline := Some "By Jane Doe" |}.

Definition noFilters : NewsFilters :=
  {| searchQuery := None; category := None; fromDate := None;
     toDate := None; author_filter := None |}.

Definition queryFilters (q : string) : NewsFilters :=
  {| searchQuery := Some q; category := None; fromDate := None;
     toDate := None; author_filter := None |}.

(** ** C10: Guardian articles carry no description and no author *)

(** C10.  Every article of a fulfilled [fetchGuardianArticles] call has the
    empty description and no author, whatever fields the upstream result
    carries. *)
Theorem guardian_no_description_no_author env net q s f t a tr l :
  fst (fetchGuardianArticles env net q s f t a tr) = Fulfilled l →
  Forall (λ x, description x = "" ∧ author x = None) l.
Proof.
  intros Hl. apply fetchGuardianArticles_fulfilled in Hl as [raws ->].
  apply Forall_fmap, Forall_forall. intros raw _. by split.
Qed.

(** An upstream result with [trailText], [bodyText] and [byline] set. *)
Lemma guardian_no_description_no_author_witness :
  fst (fetchGuardianArticles sampleEnv
         (netOf HttpError HttpError
            (HttpOk (GuardianBody [guardianRaw "a" "2024-01-01T00:00:00Z"])))
         None None None None None empty_trace)
  = Fulfilled [normalizeGuardian (guardianRaw "a" "2024-01-01T00:00:00Z")]
  ∧ Forall (λ x, description x = "" ∧ author x = None)
      [normalizeGuardian (guardianRaw "a" "2024-01-01T00:00:00Z")].
Proof.
  split; [reflexivity|].
  apply (guardian_no_description_no_author sampleEnv
           (netOf HttpError HttpError
              (HttpOk (GuardianBody [guardianRaw "a" "2024-01-01T00:00:00Z"])))
           None None None None None empty_trace).
  reflexivity.
Defined.

(** ** C3: what every adapter article is guaranteed to have *)






(** The four values an article takes over from the provider. *)
Definition copiedFields (x : NewsArticle) (i t u p : string) : Prop :=
  id x = i ∧ title x = t ∧ url x = u ∧ publishedAt x = p.





(** The sample article is well formed, and it is the record the transport
    answered with. *)
Example nyt_sample_article_wellFormed :
  wellFormed (normalizeNYT (nytRaw "nyt://article/1" "2024-01-02T00:00:00Z"))
  ∧ copiedFields (normalizeNYT (nytRaw "nyt://article/1" "2024-01-02T00:00:00Z"))
      "nyt://article/1" "NYT headline" "https://www.nytimes.com/nyt://article/1"
      "2024-01-02T00:00:00Z".
Proof. by repeat split. Qed.

(** ** C7: search mode and browse mode *)

Lemma truthy_js_or a b : JS.truthy (js_or a b) = JS.truthy a || JS.truthy b.
Proof. unfold js_or. by destruct (JS.truthy a) eqn:Ha. Qed.

Lemma isSearching_truthy filters :
  isSearching filters
  = JS.truthy (searchQuery filters) || JS.truthy (fromDate filters)
    || JS.truthy (toDate filters).
Proof. unfold isSearching. by rewrite !truthy_js_or. Qed.

(** C7.  [useMultiSourceNews] is in search mode exactly when one of
    [searchQuery], [fromDate], [toDate] is truthy.  In that case what the
    hook returns is what [useQuery] returns for [searchAllNews] on the
    sources and filters, and once the fetch has settled its data is the list
    [searchAllNews] resolved with; when none of the three is truthy the same
    holds with [getTopHeadlines] on the sources and the category.  A
    category alone browses. *)
Theorem search_mode_iff_query_or_dates env net getTime sources filters tr :
  (isSearching filters = true ↔
     JS.truthy (searchQuery filters) = true
     ∨ JS.truthy (fromDate filters) = true
     ∨ JS.truthy (toDate filters) = true)
  ∧ (JS.truthy (searchQuery filters) = true
     ∨ JS.truthy (fromDate filters) = true
     ∨ JS.truthy (toDate filters) = true →
     (∀ settled,
        useMultiSourceNews env net getTime sources filters settled tr
        = useQuery (searchAllNews env net getTime sources filters) settled tr)
     ∧ ∃ out,
         fst (searchAllNews env net getTime sources filters tr) = Fulfilled out
         ∧ useMultiSourceNews env net getTime sources filters true tr
           = {| data := Some out; query_isLoading := false;
                query_isError := false; query_error := None |})
  ∧ (JS.truthy (searchQuery filters) = false
     ∧ JS.truthy (fromDate filters) = false
     ∧ JS.truthy (toDate filters) = false →
     (∀ settled,
        useMultiSourceNews env net getTime sources filters settled tr
        = useQuery (getTopHeadlines env net getTime sources (category filters))
            settled tr)
     ∧ ∃ out,
         fst (getTopHeadlines env net getTime sources (category filters) tr)
         = Fulfilled out
         ∧ useMultiSourceNews env net getTime sources filters true tr
           = {| data := Some out; query_isLoading := false;
                query_isError := false; query_error := None |})
  ∧ (∀ c, ∃ out,
       fst (getTopHeadlines env net getTime sources c tr) = Fulfilled out
       ∧ useMultiSourceNews env net getTime sources
           {| searchQuery := None; category := c; fromDate := None;
              toDate := None; author_filter := author_filter filters |} true tr
         = {| data := Some out; query_isLoading := false;
              query_isError := false; query_error := None |})
  ∧ useMultiSourceNews env net getTime sources filters false tr
    = {| data := None; query_isLoading := true;
         query_isError := false; query_error := None |}.
Proof.
  assert (∀ c, ∃ out,
            fst (getTopHeadlines env net getTime sources c tr) = Fulfilled out
            ∧ useQuery (getTopHeadlines env net getTime sources c) true tr
              = {| data := Some out; query_isLoading := false;
                   query_isError := false; query_error := None |}) as Hbrowse.
  { intros c.
    destruct (getTopHeadlines_run env net getTime sources c tr)
      as (results & cs & _ & Hout & _).
    eexists. split; [exact Hout|]. unfold useQuery. by rewrite Hout. }
  split; [|split; [|split; [|split]]].
  - rewrite isSearching_truthy, !orb_true_iff. tauto.
  - intros Hsome.
    assert (isSearching filters = true) as Hmode.
    { rewrite isSearching_truthy, !orb_true_iff. tauto. }
    assert (∀ settled,
              useMultiSourceNews env net getTime sources filters settled tr
              = useQuery (searchAllNews env net getTime sources filters) settled tr)
      as Hhook.
    { intros settled. unfold useMultiSourceNews, queryFn. by rewrite Hmode. }
    split; [done|].
    destruct (searchAllNews_run env net getTime sources filters tr)
      as (results & cs & _ & Hout & _).
    eexists. split; [exact Hout|]. rewrite Hhook. unfold useQuery. by rewrite Hout.
  - intros (Hq & Hf & Ht).
    assert (isSearching filters = false) as Hmode.
    { by rewrite isSearching_truthy, Hq, Hf, Ht. }
    assert (∀ settled,
              useMultiSourceNews env net getTime sources filters settled tr
              = useQuery (getTopHeadlines env net getTime sources (category filters))
                  settled tr) as Hhook.
    { intros settled. unfold useMultiSourceNews, queryFn. by rewrite Hmode. }
    split; [done|].
    destruct (Hbrowse (category filters)) as (out & Hout & Hdata).
    exists out. split; [done|]. by rewrite Hhook.
  - intros c. destruct (Hbrowse c) as (out & Hout & Hdata).
    exists out. split; [done|]. exact Hdata.
  - reflexivity.
Qed.

(** A keyword search on three answering sources: the hook hands over the
    list [searchAllNews] resolved with. *)
Lemma search_mode_iff_query_or_dates_witness :
  (∀ settled,
     useMultiSourceNews sampleEnv
       (netOf (HttpOk (NewsApiBody
                 [newsApiRaw (Some "bbc-news") "https://example.org/1"
                    "2024-01-01T00:00:00Z"]))
              (HttpOk (NYTResultsBody
                 [nytRaw "nyt://article/1" "2024-01-02T00:00:00Z"]))
              (HttpOk (GuardianBody [guardianRaw "a" "2024-01-01T00:00:00Z"])))
       sampleTime ["newsapi"; "guardian"; "nytimes"] (queryFilters "climate")
       settled empty_trace
     = useQuery
         (searchAllNews sampleEnv
            (netOf (HttpOk (NewsApiBody
                      [newsApiRaw (Some "bbc-news") "https://example.org/1"
                         "2024-01-01T00:00:00Z"]))
                   (HttpOk (NYTResultsBody
                      [nytRaw "nyt://article/1" "2024-01-02T00:00:00Z"]))
                   (HttpOk (GuardianBody [guardianRaw "a" "2024-01-01T00:00:00Z"])))
            sampleTime ["newsapi"; "guardian"; "nytimes"] (queryFilters "climate"))
         settled empty_trace)
  ∧ ∃ out,
      fst (searchAllNews sampleEnv
             (netOf (HttpOk (NewsApiBody
                       [newsApiRaw (Some "bbc-news") "https://example.org/1"
                          "2024-01-01T00:00:00Z"]))
                    (HttpOk (NYTResultsBody
                       [nytRaw "nyt://article/1" "2024-01-02T00:00:00Z"]))
                    (HttpOk (GuardianBody [guardianRaw "a" "2024-01-01T00:00:00Z"])))
             sampleTime ["newsapi"; "guardian"; "nytimes"] (queryFilters "climate")
             empty_trace) = Fulfilled out
      ∧ useMultiSourceNews sampleEnv
          (netOf (HttpOk (NewsApiBody
                    [newsApiRaw (Some "bbc-news") "https://example.org/1"
                       "2024-01-01T00:00:00Z"]))
                 (HttpOk (NYTResultsBody
                    [nytRaw "nyt://article/1" "2024-01-02T00:00:00Z"]))
                 (HttpOk (GuardianBody [guardianRaw "a" "2024-01-01T00:00:00Z"])))
          sampleTime ["newsapi"; "guardian"; "nytimes"] (queryFilters "climate")
          true empty_trace
        = {| data := Some out; query_isLoading := false;
             query_isError := false; query_error := None |}.
Proof.
  apply (search_mode_iff_query_or_dates sampleEnv
           (netOf (HttpOk (NewsApiBody
                     [newsApiRaw (Some "bbc-news") "https://example.org/1"
                        "2024-01-01T00:00:00Z"]))
                  (HttpOk (NYTResultsBody
                     [nytRaw "nyt://article/1" "2024-01-02T00:00:00Z"]))
                  (HttpOk (GuardianBody [guardianRaw "a" "2024-01-01T00:00:00Z"])))
           sampleTime ["newsapi"; "guardian"; "nytimes"] (queryFilters "climate")
           empty_trace).
  left. reflexivity.
Defined.

(** The two modes show: on the same three answering sources the keyword
    search hands over the NewsAPI and the Guardian article (the NYT branch
    is skipped), browsing hands over all three. *)
Example hook_data_by_mode :
  let net := netOf (HttpOk (NewsApiBody
                      [newsApiRaw (Some "bbc-news") "https://example.org/1"
                         "2024-01-01T00:00:00Z"]))
                   (HttpOk (NYTResultsBody
                      [nytRaw "nyt://article/1" "2024-01-02T00:00:00Z"]))
                   (HttpOk (GuardianBody [guardianRaw "a" "2024-01-01T00:00:00Z"])) in
  data (useMultiSourceNews sampleEnv net sampleTime ["newsapi"; "guardian"; "nytimes"]
          (queryFilters "climate") true empty_trace)
  = Some [normalizeNewsApi (newsApiRaw (Some "bbc-news") "https://example.org/1"
                              "2024-01-01T00:00:00Z");
          normalizeGuardian (guardianRaw "a" "2024-01-01T00:00:00Z")]
  ∧ data (useMultiSourceNews sampleEnv net sampleTime ["newsapi"; "guardian"; "nytimes"]
            noFilters true empty_trace)
    = Some [normalizeNYT (nytRaw "nyt://article/1" "2024-01-02T00:00:00Z");
            normalizeNewsApi (newsApiRaw (Some "bbc-news") "https://example.org/1"
                                "2024-01-01T00:00:00Z");
            normalizeGuardian (guardianRaw "a" "2024-01-01T00:00:00Z")].
Proof. split; vm_compute; reflexivity. Qed.

(** A category alone browses; a date alone searches. *)
Example category_alone_browses :
  isSearching {| searchQuery := None; category := Some "technology";
                 fromDate := None; toDate := None; author_filter := None |} = false
  ∧ isSearching {| searchQuery := Some ""; category := None;
                   fromDate := Some "2024-01-01"; toDate := None;
                   author_filter := None |} = true.
Proof. split; reflexivity. Qed.

(** ** C9: the legacy [authors] array *)

Definition dquote : string := String "034"%char EmptyString.

(** The stored text [{"authors":[...]}] around the text of the array. *)
Definition legacyText (items : string) : string :=
  "{" +:+ dquote +:+ "authors" +:+ dquote +:+ ":[" +:+ items +:+ "]}".

Definition janeText : string := legacyText (dquote +:+ "Jane Doe" +:+ dquote).
Definition nullText : string := legacyText "null".

(** A record as the old drawer stored it:
    [{"categories":["Technology"],"authors":["Jane Doe","John Roe"],"sources":["guardian"]}]. *)
Definition legacyRecordText : string :=
  "{" +:+ dquote +:+ "categories" +:+ dquote +:+ ":[" +:+ dquote +:+ "Technology"
  +:+ dquote +:+ "]," +:+ dquote +:+ "authors" +:+ dquote +:+ ":[" +:+ dquote
  +:+ "Jane Doe" +:+ dquote +:+ "," +:+ dquote +:+ "John Roe" +:+ dquote +:+ "],"
  +:+ dquote +:+ "sources" +:+ dquote +:+ ":[" +:+ dquote +:+ "guardian" +:+ dquote
  +:+ "]}".

Definition legacyRecord : gmap string JSON :=
  {[ "categories" := JArray [JString "Technology"];
     "authors" := JArray [JString "Jane Doe"; JString "John Roe"];
     "sources" := JArray [JString "guardian"] ]}.

(** [JSON.parse] on the texts the samples store; the other texts of the
    samples are no JSON. *)
Definition sampleParse (s : string) : option JSON :=
  if String.eqb s janeText then
    Some (JObject {[ "authors" := JArray [JString "Jane Doe"] ]})
  else if String.eqb s nullText then
    Some (JObject {[ "authors" := JArray [JNull] ]})
  else if String.eqb s legacyRecordText then Some (JObject legacyRecord)
  else if String.eqb s "true" then Some (JBool true)
  else if String.eqb s "false" then Some (JBool false)
  else if String.eqb s "null" then Some JNull
  else None.

Definition initialDrawer : DrawerState :=
  {| preferences :=
       JObject {[ "categories" := JArray []; "authorFilter" := JString "";
                  "sources" := JArray [] ]};
     applyImmediately := JBool false |}.

Section LoadBlocks.

Context (JSON_parse : string → option JSON).

(** The first block of the load effect, up to [setPreferences(parsed)]: the
    state with the preferences it sets. *)
Definition loadStoredPreferences (localStorage : gmap string string)
  (st : DrawerState) : Outcome DrawerState :=
  match localStorage !! "newsHubPreferences" with
  | Some (String c s) =>
      match JSON_parse (String c s) with
      | Some parsed =>
          match migrate parsed with
          | Fulfilled parsed' =>
              Fulfilled {| preferences := parsed';
                           applyImmediately := applyImmediately st |}
          | Rejected e => Rejected e
          end
      | None => Rejected SyntaxError
      end
  | _ => Fulfilled st
  end.

(** The second block: the stored "apply immediately" setting. *)
Definition loadApplySetting (localStorage : gmap string string)
  (st : DrawerState) : Outcome DrawerState :=
  match localStorage !! "applyImmediately" with
  | Some (String c s) =>
      match JSON_parse (String c s) with
      | Some flag =>
          Fulfilled {| preferences := preferences st; applyImmediately := flag |}
      | None => Rejected SyntaxError
      end
  | _ => Fulfilled st
  end.

(** The effect of an open drawer runs the two blocks in turn. *)
Lemma loadPreferences_blocks localStorage st :
  loadPreferences JSON_parse true localStorage st
  = match loadStoredPreferences localStorage st with
    | Fulfilled st' => loadApplySetting localStorage st'
    | Rejected e => Rejected e
    end.
Proof. reflexivity. Qed.

(** The second block leaves the preferences alone. *)
Lemma loadApplySetting_preferences localStorage st st' :
  loadApplySetting localStorage st = Fulfilled st' →
  preferences st' = preferences st.
Proof.
  unfold loadApplySetting.
  destruct (localStorage !! "applyImmediately") as [[|c s]|];
    [by intros [= <-] | | by intros [= <-]].
  destruct (JSON_parse _); [by intros [= <-] | done].
Qed.

(** It throws only on a stored text that does not parse. *)
Lemma loadApplySetting_fulfils localStorage st :
  (∀ flag, localStorage !! "applyImmediately" = Some flag → flag ≠ "" →
           is_Some (JSON_parse flag)) →
  ∃ st', loadApplySetting localStorage st = Fulfilled st'.
Proof.
  intros Hflag. unfold loadApplySetting.
  destruct (localStorage !! "applyImmediately") as [[|c s]|] eqn:Hstored;
    [by eexists | | by eexists].
  destruct (Hflag _ eq_refl) as [flag ->]; [done|]. by eexists.
Qed.

End LoadBlocks.

Lemma first_or_empty_string s xs :
  JS.first xs = Some (JString s) → first_or_empty xs = JString s.
Proof. unfold first_or_empty. intros ->. by destruct s. Qed.

(** Outside the records the drawer wrote: were the stored record
    [{"authors":[null]}], the first element of the array would be [null]
    and the loaded [authorFilter] the empty string. *)
Lemma legacy_authors_null_not_first :
  ¬ (∃ st' props',
       loadPreferences sampleParse true {[ "newsHubPreferences" := nullText ]}
         initialDrawer = Fulfilled st'
       ∧ preferences st' = JObject props'
       ∧ props' !! "authorFilter" = JS.first [JNull]).
Proof.
  intros (st' & props' & Hload & Hprefs & Hfilter).
  vm_compute in Hload. injection Hload as <-.
  simpl in Hprefs. injection Hprefs as <-.
  vm_compute in Hfilter. discriminate.
Qed.

(** C9.  A stored legacy record, an object whose [authors] is an array of
    author names (the first element, if there is one, is a string; any
    truthy first element does as well): the effect sets preferences whose
    [authorFilter] is the first element of the array, or the empty string
    when the array is empty, with no [authors] field and every other field
    as stored.  This is what [setPreferences] receives whatever the stored
    "apply immediately" entry holds; the effect goes on to that entry with
    these preferences, so whenever it completes they are the loaded
    preferences, and it completes unless that entry holds text that does
    not parse. *)
Theorem legacy_authors_migrated JSON_parse (storage : gmap string string)
    st saved props xs :
  storage !! "newsHubPreferences" = Some saved →
  saved ≠ "" →
  JSON_parse saved = Some (JObject props) →
  props !! "authors" = Some (JArray xs) →
  (∀ v, JS.first xs = Some v → json_truthy v = true ∨ ∃ s, v = JString s) →
  ∃ props',
    loadStoredPreferences JSON_parse storage st
    = Fulfilled {| preferences := JObject props';
                   applyImmediately := applyImmediately st |}
    ∧ props' !! "authorFilter" = Some (default (JString "") (JS.first xs))
    ∧ props' !! "authors" = None
    ∧ (∀ k, k ≠ "authors" → k ≠ "authorFilter" → props' !! k = props !! k)
    ∧ loadPreferences JSON_parse true storage st
      = loadApplySetting JSON_parse storage
          {| preferences := JObject props';
             applyImmediately := applyImmediately st |}
    ∧ (∀ st', loadPreferences JSON_parse true storage st = Fulfilled st' →
              preferences st' = JObject props')
    ∧ ((∀ flag, storage !! "applyImmediately" = Some flag → flag ≠ "" →
                is_Some (JSON_parse flag)) →
       ∃ st', loadPreferences JSON_parse true storage st = Fulfilled st'
              ∧ preferences st' = JObject props').
Proof.
  intros Hsaved Hne Hparse Hauthors Hfirst.
  set (props' := delete "authors" (<["authorFilter" := first_or_empty xs]> props)).
  assert (first_or_empty xs = default (JString "") (JS.first xs)) as Hvalue.
  { unfold first_or_empty. destruct (JS.first xs) as [v|] eqn:Hv; [|done].
    destruct (Hfirst v eq_refl) as [-> | [s ->]]; [done|]. simpl. by destruct s. }
  assert (loadStoredPreferences JSON_parse storage st
          = Fulfilled {| preferences := JObject props';
                         applyImmediately := applyImmediately st |}) as Hset.
  { unfold loadStoredPreferences. rewrite Hsaved.
    destruct saved as [|c s]; [done|]. rewrite Hparse. simpl.
    by rewrite Hauthors. }
  assert (loadPreferences JSON_parse true storage st
          = loadApplySetting JSON_parse storage
              {| preferences := JObject props';
                 applyImmediately := applyImmediately st |}) as Hload.
  { by rewrite loadPreferences_blocks, Hset. }
  exists props'. split; [done|]. split; [|split; [|split; [|split; [done|split]]]].
  - unfold props'. rewrite lookup_delete_ne by done.
    by rewrite lookup_insert_eq, Hvalue.
  - unfold props'. apply lookup_delete_eq.
  - intros k Hk1 Hk2. unfold props'.
    by rewrite lookup_delete_ne, lookup_insert_ne.
  - intros st'. rewrite Hload. by intros ->%loadApplySetting_preferences.
  - intros Hflag. rewrite Hload.
    destruct (loadApplySetting_fulfils JSON_parse storage
                {| preferences := JObject props';
                   applyImmediately := applyImmediately st |} Hflag) as [st' Hst'].
    exists st'. split; [done|]. by apply loadApplySetting_preferences in Hst'.
Qed.

(** The record
    [{"categories":["Technology"],"authors":["Jane Doe","John Roe"],"sources":["guardian"]}],
    stored next to the setting [true]. *)
Lemma legacy_authors_migrated_witness :
  ∃ props',
    loadStoredPreferences sampleParse
      {[ "newsHubPreferences" := legacyRecordText; "applyImmediately" := "true" ]}
      initialDrawer
    = Fulfilled {| preferences := JObject props';
                   applyImmediately := applyImmediately initialDrawer |}
    ∧ props' !! "authorFilter"
      = Some (default (JString "") (JS.first [JString "Jane Doe"; JString "John Roe"]))
    ∧ props' !! "authors" = None
    ∧ (∀ k, k ≠ "authors" → k ≠ "authorFilter" → props' !! k = legacyRecord !! k)
    ∧ loadPreferences sampleParse true
        {[ "newsHubPreferences" := legacyRecordText; "applyImmediately" := "true" ]}
        initialDrawer
      = loadApplySetting sampleParse
          {[ "newsHubPreferences" := legacyRecordText; "applyImmediately" := "true" ]}
          {| preferences := JObject props';
             applyImmediately := applyImmediately initialDrawer |}
    ∧ (∀ st',
         loadPreferences sampleParse true
           {[ "newsHubPreferences" := legacyRecordText; "applyImmediately" := "true" ]}
           initialDrawer = Fulfilled st' →
         preferences st' = JObject props')
    ∧ ((∀ flag,
          ({[ "newsHubPreferences" := legacyRecordText; "applyImmediately" := "true" ]}
             : gmap string string) !! "applyImmediately" = Some flag →
          flag ≠ "" → is_Some (sampleParse flag)) →
       ∃ st',
         loadPreferences sampleParse true
           {[ "newsHubPreferences" := legacyRecordText; "applyImmediately" := "true" ]}
           initialDrawer = Fulfilled st'
         ∧ preferences st' = JObject props').
Proof.
  apply (legacy_authors_migrated sampleParse
           {[ "newsHubPreferences" := legacyRecordText; "applyImmediately" := "true" ]}
           initialDrawer legacyRecordText legacyRecord
           [JString "Jane Doe"; JString "John Roe"]).
  - reflexivity.
  - discriminate.
  - reflexivity.
  - reflexivity.
  - intros v [= <-]. right. by eexists.
Defined.

(** The loaded state of the sample record, in full. *)
Example legacy_record_loaded :
  loadPreferences sampleParse true
    {[ "newsHubPreferences" := legacyRecordText; "applyImmediately" := "true" ]}
    initialDrawer
  = Fulfilled
      {| preferences :=
           JObject {[ "categories" := JArray [JString "Technology"];
                      "authorFilter" := JString "Jane Doe";
                      "sources" := JArray [JString "guardian"] ]};
         applyImmediately := JBool true |}.
Proof. vm_compute. reflexivity. Qed.

(** The record [{"authors":["Jane Doe"]}] loads as
    [{"authorFilter":"Jane Doe"}]; [{"authors":[]}] would load with the
    empty [authorFilter]. *)
Example legacy_jane_doe_loaded :
  loadPreferences sampleParse true
    {[ "newsHubPreferences" := janeText; "applyImmediately" := "true" ]}
    initialDrawer
  = Fulfilled {| preferences := JObject {[ "authorFilter" := JString "Jane Doe" ]};
                 applyImmediately := JBool true |}
  ∧ migrate (JObject {[ "authors" := JArray [] ]})
    = Fulfilled (JObject {[ "authorFilter" := JString "" ]}).
Proof. split; vm_compute; reflexivity. Qed.

(** Next to a setting that is no JSON the effect sets the migrated
    preferences and then throws on the setting. *)
Example legacy_record_unreadable_setting :
  loadStoredPreferences sampleParse
    {[ "newsHubPreferences" := janeText; "applyImmediately" := "yes" ]} initialDrawer
  = Fulfilled {| preferences := JObject {[ "authorFilter" := JString "Jane Doe" ]};
                 applyImmediately := JBool false |}
  ∧ loadPreferences sampleParse true
      {[ "newsHubPreferences" := janeText; "applyImmediately" := "yes" ]} initialDrawer
    = Rejected SyntaxError.
Proof. split; vm_compute; reflexivity. Qed.

(** ** The failure heuristic of [useCombinedNews] *)

Section Heuristic.

Context {A : Type} (P : A → Prop) `{!∀ x, Decision (P x)}.

Lemma filter_length_zero (l : list A) :
  length (filter P l) = 0%nat ↔ ∀ x, x ∈ l → ¬ P x.
Proof.
  rewrite length_zero_iff_nil. split.
  - intros Hnil x Hx HP. by eapply filter_nil_not_elem_of.
  - intros Hall. induction l as [|x l IH]; [done|].
    rewrite filter_cons_False by (apply Hall; constructor).
    apply IH. intros y Hy. apply Hall. by constructor.
Qed.

Lemma filter_length_lt (l : list A) :
  (length (filter P l) < length l)%nat ↔ ∃ x, x ∈ l ∧ ¬ P x.
Proof.
  split; [|intros (x & Hx & HP); by eapply length_filter_lt].
  induction l as [|x l IH]; simpl; [lia|].
  rewrite filter_cons. case_decide as HP.
  - simpl. intros Hlt. destruct IH as (y & Hy & HPy); [lia|].
    exists y. split; [by constructor | done].
  - intros _. exists x. split; [constructor | done].
Qed.

End Heuristic.

Lemma elem_of_failedSourcesOf sources arts src :
  src ∈ failedSourcesOf sources arts ↔
  src ∈ sources ∧ ∀ x, x ∈ arts → source_id (source x) ≠ src.
Proof.
  unfold failedSourcesOf. rewrite list_elem_of_filter. cbv zeta.
  rewrite (filter_length_zero (λ x, source_id (source x) = src)). tauto.
Qed.

Lemma hasPartialDataOf_true sources arts :
  hasPartialDataOf sources arts = true ↔
  arts ≠ [] ∧ ∃ src, src ∈ sources ∧ src ∉ failedSourcesOf sources arts.
Proof.
  unfold hasPartialDataOf.
  rewrite andb_true_iff, !bool_decide_eq_true.
  assert ((0 < length arts)%nat ↔ arts ≠ []) as ->.
  { destruct arts; simpl; split; (done || lia). }
  unfold failedSourcesOf at 1. rewrite filter_length_lt.
  split; intros [Hne (src & Hsrc & Hnot)]; (split; [done|]); exists src;
    (split; [done|]).
  - intros [_ Hfail]%elem_of_failedSourcesOf. apply Hnot.
    by apply (filter_length_zero (λ x, source_id (source x) = src)).
  - intros Hzero. apply Hnot, elem_of_failedSourcesOf. split; [done|].
    by apply (filter_length_zero (λ x, source_id (source x) = src)).
Qed.

(** ** C1: [hasPartialData] *)

(** C1, as stated, fails: the one selected source answers with an article;
    no source is classified as failed, and [hasPartialData] is true. *)
Lemma partial_data_without_failed_source :
  ¬ (let r := useCombinedNews sampleEnv
                (netOf HttpError HttpError
                   (HttpOk (GuardianBody [guardianRaw "a" "2024-01-01T00:00:00Z"])))
                sampleTime ["guardian"] noFilters true empty_trace in
     hasPartialData r = true ↔
       articles r ≠ []
       ∧ (0 < length (failedSources r))%nat
       ∧ (length (failedSources r) < length ["guardian"])%nat).
Proof.
  intros [Hclaim _]. destruct Hclaim as (_ & Hfailed & _); [reflexivity|].
  vm_compute in Hfailed. inversion Hfailed.
Qed.

(** C1, amended.  [hasPartialData] is true exactly when the merged list is
    non-empty and not every selected source is classified as failed (none
    need be); when every adapter call of the fetch rejected or returned no
    article, it is false. *)
Theorem partial_data_iff_some_source_present
    env net getTime sources filters settled tr :
  let r := useCombinedNews env net getTime sources filters settled tr in
  (hasPartialData r = true ↔
     articles r ≠ [] ∧ ∃ src, src ∈ sources ∧ src ∉ failedSources r)
  ∧ (∀ cs,
       calls (snd (queryFn env net getTime sources filters tr)) = calls tr ++ cs →
       Forall (λ co, contribution co.2 = []) cs →
       hasPartialData r = false).
Proof.
  cbv zeta. split; [apply hasPartialDataOf_true|].
  intros cs Hcalls Hempty.
  unfold useCombinedNews, useMultiSourceNews, useQuery; simpl.
  destruct settled; [|done].
  destruct (queryFn_run env net getTime sources filters tr) as (cs' & Hcalls' & Hfst & _).
  rewrite Hcalls in Hcalls'. apply app_inv_head in Hcalls' as <-.
  rewrite Hfst; simpl.
  rewrite concat_all_nil; [done|].
  apply Forall_fmap, Forall_fmap. eapply Forall_impl; [exact Hempty|]. done.
Qed.

(** ** C2: [nytimes] among the failed sources *)

Lemma produced_newsapi_from_net env net x :
  produced env net newsApiClient x →
  ∃ n r raws raw,
    net n r = HttpOk (NewsApiBody raws) ∧ raw ∈ raws ∧ x = normalizeNewsApi raw.
Proof.
  inversion 1 as [q c f t a tr l x' Hl Hx| |]; subst.
  unfold fetchNewsApiArticles in Hl. rewrite invoked_run in Hl.
  unfold bind, http_get in Hl; simpl in Hl.
  destruct (net _ _) as [|[]] eqn:Hnet; simpl in Hl; try discriminate.
  injection Hl as <-. apply list_elem_of_fmap in Hx as (raw & -> & Hraw).
  eauto 10.
Qed.

(** C2, as stated, fails: NewsAPI passes the upstream source id on; an
    article it labels ['nytimes'] makes the heuristic count [nytimes] as
    present, though the NYT request failed. *)
Lemma nytimes_not_failed_by_newsapi_label :
  "nytimes" ∈ ["newsapi"; "nytimes"]
  ∧ "nytimes" ∉
      failedSources
        (useCombinedNews sampleEnv
           (netOf (HttpOk (NewsApiBody
                     [newsApiRaw (Some "nytimes") "https://example.org/1"
                        "2024-01-01T00:00:00Z"]))
                  HttpError HttpError)
           sampleTime ["newsapi"; "nytimes"] noFilters true empty_trace).
Proof.
  split; [repeat constructor|].
  vm_compute. intros H. inversion H as [|? ? ? H']; inversion H'.
Qed.

(** The NYT article is in the merged list of that run, and [nytimes] is
    reported as failed all the same. *)
Example nytimes_failed_though_fetched :
  let r := useCombinedNews sampleEnv
             (netOf HttpError
                (HttpOk (NYTResultsBody
                   [nytRaw "nyt://article/1" "2024-01-02T00:00:00Z"]))
                HttpError)
             sampleTime ["nytimes"] noFilters true empty_trace in
  articles r = [normalizeNYT (nytRaw "nyt://article/1" "2024-01-02T00:00:00Z")]
  ∧ failedSources r = ["nytimes"]
  ∧ hasPartialData r = false.
Proof. vm_compute. done. Qed.

(** ** C4: the merged list is sorted, newest first, and stable *)

Definition timeOf (getTime : string → option Z) (x : NewsArticle) : option Z :=
  getTime (publishedAt x).

(** Every article has a time value, and none precedes a newer one. *)
Definition newestFirst (getTime : string → option Z) (l : list NewsArticle) : Prop :=
  StronglySorted
    (λ a b, ∃ ta tb, timeOf getTime a = Some ta ∧ timeOf getTime b = Some tb ∧ tb ≤ ta)
    l.

(** Articles of one time value come in [l] in the order they have in [l0]. *)
Definition tiesKeepOrder (getTime : string → option Z) (l0 l : list NewsArticle)
  : Prop :=
  ∀ t, filter (λ x, timeOf getTime x = Some t) l
       = filter (λ x, timeOf getTime x = Some t) l0.

(** [out] is the stable, newest-first arrangement of [l], the only one. *)
Definition sortedMerge (getTime : string → option Z) (l out : list NewsArticle)
  : Prop :=
  out ≡ₚ l
  ∧ newestFirst getTime out
  ∧ tiesKeepOrder getTime l out
  ∧ ∀ l', l' ≡ₚ l → newestFirst getTime l' → tiesKeepOrder getTime l l' → l' = out.

(** The weakest reading of "sorted by [publishedAt] descending": of two
    articles with time values, the earlier in the list is not the older. *)
Definition neverOlderFirst (getTime : string → option Z) (l : list NewsArticle)
  : Prop :=
  ∀ i j a b ta tb,
    (i < j)%nat → l !! i = Some a → l !! j = Some b →
    timeOf getTime a = Some ta → timeOf getTime b = Some tb → tb ≤ ta.

Lemma StronglySorted_impl_in {A} (R R' : A → A → Prop) l :
  (∀ x y, x ∈ l → y ∈ l → R x y → R' x y) →
  StronglySorted R l → StronglySorted R' l.
Proof.
  intros Himpl Hs. induction Hs as [|x l Hs IH Hx]; constructor.
  - apply IH. intros; apply Himpl; by try constructor.
  - rewrite Forall_forall in *. intros y Hy.
    apply Himpl; [constructor | by constructor | by apply Hx].
Qed.

Lemma filter_ext_in {A} (P Q : A → Prop)
    `{!∀ x, Decision (P x), !∀ x, Decision (Q x)} (l : list A) :
  (∀ x, x ∈ l → P x ↔ Q x) → filter P l = filter Q l.
Proof.
  induction l as [|x l IH]; intros Hext; [done|].
  rewrite !filter_cons, IH by (intros; apply Hext; by constructor).
  destruct (Hext x) as [H1 H2]; [constructor|].
  repeat case_decide; try done; tauto.
Qed.

Section SortedMerge.

Context (getTime : string → option Z).

Definition timeKey (x : NewsArticle) : Z := default 0 (timeOf getTime x).

Lemma timeOf_timeKey l x :
  Forall (λ x, is_Some (timeOf getTime x)) l → x ∈ l →
  timeOf getTime x = Some (timeKey x).
Proof.
  rewrite Forall_forall. intros Hvalid Hx.
  destruct (Hvalid x Hx) as [t Ht]. unfold timeKey. by rewrite Ht.
Qed.

Lemma Array_sort_sortedMerge l :
  Forall (λ x, is_Some (timeOf getTime x)) l →
  sortedMerge getTime l (JS.Array_sort (compareByDate getTime) l).
Proof.
  intros Hvalid.
  assert (JS.Array_sort (compareByDate getTime) l
          = JS.Array_sort (byKeyDesc timeKey) l) as ->.
  { apply Array_sort_ext. intros x y Hx Hy. unfold compareByDate, byKeyDesc.
    fold (timeOf getTime x) (timeOf getTime y).
    by rewrite (timeOf_timeKey l x), (timeOf_timeKey l y). }
  assert (∀ l', l' ≡ₚ l → ∀ x, x ∈ l' → timeOf getTime x = Some (timeKey x)) as Hkey.
  { intros l' Hl' x Hx. apply (timeOf_timeKey l); [done | by rewrite <- Hl']. }
  assert (∀ l', l' ≡ₚ l → ∀ t,
            filter (λ x, timeOf getTime x = Some t) l'
            = filter (λ x, timeKey x = t) l') as Hfilter.
  { intros l' Hl' t. apply filter_ext_in. intros x Hx.
    rewrite (Hkey l' Hl' x Hx). split; [by intros [= ->] | by intros ->]. }
  pose proof (Array_sort_perm (byKeyDesc timeKey) l) as Hperm.
  repeat split.
  - done.
  - eapply StronglySorted_impl_in; [|apply Array_sort_sorted].
    intros x y Hx Hy Hxy. exists (timeKey x), (timeKey y).
    by rewrite (Hkey _ Hperm x Hx), (Hkey _ Hperm y Hy).
  - intros t. rewrite (Hfilter _ Hperm), (Hfilter l) by done.
    apply Array_sort_stable.
  - intros l' Hl' Hsorted Hties.
    apply (sorted_stable_unique timeKey).
    + eapply StronglySorted_impl_in; [|exact Hsorted].
      intros x y Hx Hy (ta & tb & Ha & Hb & Hle). unfold keyDesc.
      rewrite (Hkey l' Hl' x Hx) in Ha. rewrite (Hkey l' Hl' y Hy) in Hb.
      by simplify_eq.
    + apply Array_sort_sorted.
    + intros k. rewrite Array_sort_stable.
      rewrite <- (Hfilter l' Hl'), <- (Hfilter l) by done. apply Hties.
Qed.

End SortedMerge.

(** C4, as stated, fails: the second of three Guardian results has a
    [webPublicationDate] that is no date, the comparator returns [NaN]
    against it, and the sort leaves the oldest article ahead of the
    newest. *)
Lemma merged_list_older_first :
  ¬ (∀ out,
       fst (searchAllNews sampleEnv
              (netOf HttpError HttpError
                 (HttpOk (GuardianBody
                    [guardianRaw "a" "2024-01-01T00:00:00Z";
                     guardianRaw "b" "";
                     guardianRaw "c" "2024-01-02T00:00:00Z"])))
              sampleTime ["guardian"] noFilters empty_trace) = Fulfilled out →
       neverOlderFirst sampleTime out).
Proof.
  intros Hall.
  assert (1704153600000 ≤ 1704067200000) as Hle; [|lia].
  apply (Hall [normalizeGuardian (guardianRaw "a" "2024-01-01T00:00:00Z");
               normalizeGuardian (guardianRaw "b" "");
               normalizeGuardian (guardianRaw "c" "2024-01-02T00:00:00Z")]
              eq_refl 0%nat 2%nat
              (normalizeGuardian (guardianRaw "a" "2024-01-01T00:00:00Z"))
              (normalizeGuardian (guardianRaw "c" "2024-01-02T00:00:00Z")));
    [lia | reflexivity..].
Qed.

(** C4, amended.  The per-source arrays are what the adapter calls of the
    run contributed, in the order of [sources].  When every [publishedAt]
    in them is a date, the list [searchAllNews] returns, and likewise the
    one [getTopHeadlines] returns, is their concatenation sorted by time
    value, newest first, articles of equal time value in their order in the
    concatenation; no other arrangement is sorted and stable. *)
Theorem merged_list_sorted_stable env net getTime sources filters category tr :
  (∃ searched cs out,
     fst (Promise_all (searchBranch env net filters <$> sources) tr) = Fulfilled searched
     ∧ calls (snd (searchAllNews env net getTime sources filters tr)) = calls tr ++ cs
     ∧ concat searched = concat (contribution <$> cs.*2)
     ∧ fst (searchAllNews env net getTime sources filters tr) = Fulfilled out
     ∧ out ≡ₚ concat searched
     ∧ (Forall (λ x, is_Some (timeOf getTime x)) (concat searched) →
        sortedMerge getTime (concat searched) out))
  ∧ (∃ browsed cs out,
       fst (Promise_all (headlinesBranch env net category <$> sources) tr)
         = Fulfilled browsed
       ∧ calls (snd (getTopHeadlines env net getTime sources category tr))
         = calls tr ++ cs
       ∧ concat browsed = concat (contribution <$> cs.*2)
       ∧ fst (getTopHeadlines env net getTime sources category tr) = Fulfilled out
       ∧ out ≡ₚ concat browsed
       ∧ (Forall (λ x, is_Some (timeOf getTime x)) (concat browsed) →
          sortedMerge getTime (concat browsed) out)).
Proof.
  split.
  - destruct (searchAllNews_run env net getTime sources filters tr)
      as (results & cs & (Hfst & _ & _ & Hconcat & _) & Hout & Hcalls).
    exists results, cs, (JS.Array_sort (compareByDate getTime) (concat results)).
    split; [done|]. split; [done|]. split; [done|]. split; [done|].
    split; [apply Array_sort_perm | apply Array_sort_sortedMerge].
  - destruct (getTopHeadlines_run env net getTime sources category tr)
      as (results & cs & (Hfst & _ & _ & Hconcat & _) & Hout & Hcalls).
    exists results, cs, (JS.Array_sort (compareByDate getTime) (concat results)).
    split; [done|]. split; [done|]. split; [done|]. split; [done|].
    split; [apply Array_sort_perm | apply Array_sort_sortedMerge].
Qed.

Definition threeSources : nat → Request → HttpResult :=
  netOf (HttpOk (NewsApiBody
           [newsApiRaw (Some "bbc-news") "https://example.org/1" "2024-01-01T00:00:00Z"]))
        (HttpOk (NYTResultsBody [nytRaw "nyt://article/1" "2024-01-02T00:00:00Z"]))
        (HttpOk (GuardianBody
           [guardianRaw "a" "2024-01-01T00:00:00Z";
            guardianRaw "b" "2024-01-02T00:00:00Z"])).

Definition threeResults : list (list NewsArticle) :=
  [ [normalizeNewsApi
       (newsApiRaw (Some "bbc-news") "https://example.org/1" "2024-01-01T00:00:00Z")];
    [normalizeGuardian (guardianRaw "a" "2024-01-01T00:00:00Z");
     normalizeGuardian (guardianRaw "b" "2024-01-02T00:00:00Z")];
    [normalizeNYT (nytRaw "nyt://article/1" "2024-01-02T00:00:00Z")] ].

Lemma threeResults_dated :
  Forall (λ x, is_Some (timeOf sampleTime x)) (concat threeResults).
Proof. repeat constructor; eexists; reflexivity. Qed.

(** Three sources, two of the four articles of 1 January and two of
    2 January. *)
Lemma merged_list_sorted_stable_witness :
  (∃ out, fst (searchAllNews sampleEnv threeSources sampleTime
                 ["newsapi"; "guardian"; "nytimes"] noFilters empty_trace)
          = Fulfilled out
          ∧ sortedMerge sampleTime (concat threeResults) out)
  ∧ (∃ out, fst (getTopHeadlines sampleEnv threeSources sampleTime
                   ["newsapi"; "guardian"; "nytimes"] None empty_trace)
            = Fulfilled out
            ∧ sortedMerge sampleTime (concat threeResults) out).
Proof.
  destruct (merged_list_sorted_stable sampleEnv threeSources sampleTime
              ["newsapi"; "guardian"; "nytimes"] noFilters None empty_trace)
    as [(searched & cs1 & out1 & Hs & _ & _ & Hout1 & _ & Hsorted1)
        (browsed & cs2 & out2 & Hb & _ & _ & Hout2 & _ & Hsorted2)].
  assert (searched = threeResults) as -> by (by injection Hs).
  assert (browsed = threeResults) as -> by (by injection Hb).
  split; [exists out1 | exists out2]; (split; [done|]);
    [apply Hsorted1 | apply Hsorted2]; apply threeResults_dated.
Defined.

(** The order of that run: the two articles of 2 January in the order of
    the concatenation (Guardian before NYT), then the two of 1 January
    (NewsAPI before Guardian). *)
Example merged_list_order :
  fst (searchAllNews sampleEnv threeSources sampleTime
         ["newsapi"; "guardian"; "nytimes"] noFilters empty_trace)
  = Fulfilled
      [normalizeGuardian (guardianRaw "b" "2024-01-02T00:00:00Z");
       normalizeNYT (nytRaw "nyt://article/1" "2024-01-02T00:00:00Z");
       normalizeNewsApi
         (newsApiRaw (Some "bbc-news") "https://example.org/1" "2024-01-01T00:00:00Z");
       normalizeGuardian (guardianRaw "a" "2024-01-01T00:00:00Z")].
Proof. vm_compute. reflexivity. Qed.

(** ** C5: one adapter rejects, the other two survive *)




(** ** C6: the NYT branch on a keyword search *)




(** The calls of that run: NewsAPI and the Guardian with the query, none to
    the NYT. *)
Example keyword_search_calls :
  (calls (snd (searchAllNews sampleEnv threeSources sampleTime
                 ["newsapi"; "guardian"; "nytimes"] (queryFilters "election")
                 empty_trace))).*1
  = [CallNewsApi (Some "election") None None None None;
     CallGuardian (Some "election") None None None None].
Proof. vm_compute. reflexivity. Qed.

(** ** C8: the order of settling does not show *)

Section PromiseAllSettle.

Local Open Scope nat_scope.

Context {A : Type} (results : list A).

Definition settleStep (st : AllState A) (index : nat) : AllState A :=
  match results !! index with
  | Some x => all_settle st index x
  | None => st
  end.

(** The slots once the promises at the positions [done] have settled. *)
Definition slots (done : list nat) : list (option A) :=
  imap (λ i x, if decide (i ∈ done) then Some x else None) results.

Lemma slots_lookup done i :
  slots done !! i = (λ x, if decide (i ∈ done) then Some x else None) <$> results !! i.
Proof. unfold slots. by rewrite list_lookup_imap. Qed.

Lemma slots_nil : slots [] = replicate (length results) None.
Proof.
  apply list_eq. intros i. rewrite slots_lookup.
  destruct (results !! i) as [x|] eqn:Hi; simpl.
  - rewrite lookup_replicate_2 by (by eapply lookup_lt_Some). done.
  - symmetry. apply lookup_replicate_None. by apply lookup_ge_None.
Qed.

Lemma slots_insert done i x :
  results !! i = Some x →
  <[i := Some x]> (slots done) = slots (done ++ [i]).
Proof.
  intros Hi. apply list_eq. intros j. rewrite slots_lookup.
  destruct (decide (i = j)) as [<-|Hne].
  - rewrite list_lookup_insert_eq
      by (unfold slots; rewrite length_imap; by eapply lookup_lt_Some).
    rewrite Hi. simpl. rewrite decide_True; [done|].
    apply elem_of_app. right. constructor.
  - rewrite list_lookup_insert_ne by done. rewrite slots_lookup.
    destruct (results !! j) as [y|]; simpl; [|done].
    destruct (decide (j ∈ done)) as [Hj|Hj],
      (decide (j ∈ done ++ [i])) as [Hj'|Hj']; try done.
    + exfalso. apply Hj', elem_of_app. by left.
    + exfalso.
      apply elem_of_app in Hj' as [?|Hji%list_elem_of_singleton]; [done|].
      by subst.
Qed.

Lemma slots_all done :
  (∀ i, i < length results → i ∈ done) → slots done = Some <$> results.
Proof.
  intros Hall. apply list_eq. intros i.
  rewrite slots_lookup, list_lookup_fmap.
  destruct (results !! i) as [x|] eqn:Hi; simpl; [|done].
  rewrite decide_True; [done|]. apply Hall. by eapply lookup_lt_Some.
Qed.

Lemma settleStep_slots done i rest :
  i ∉ done → i < length results →
  settleStep {| values := slots done; remaining := rest; resolved := None |} i
  = {| values := slots (done ++ [i]);
       remaining := pred rest;
       resolved := if decide (pred rest = 0) then mapM (λ v, v) (slots (done ++ [i]))
                   else None |}.
Proof.
  intros Hnot Hlt. unfold settleStep.
  destruct (lookup_lt_is_Some_2 results i Hlt) as [x Hx]. rewrite Hx.
  unfold all_settle. simpl. rewrite slots_lookup, Hx. simpl.
  rewrite decide_False by done. by rewrite (slots_insert done i x).
Qed.

(** While a promise is pending, the combined one is. *)
Lemma settle_prefix done :
  NoDup done → (∀ i, i ∈ done → i < length results) →
  length done < length results →
  foldl settleStep (all_init (length results)) done
  = {| values := slots done;
       remaining := length results - length done;
       resolved := None |}.
Proof.
  induction done as [|i done IH] using rev_ind; intros Hnodup Hlt Hlen.
  - simpl. unfold all_init. rewrite slots_nil, Nat.sub_0_r.
    rewrite decide_False; [done|]. simpl in Hlen. lia.
  - rewrite length_app in Hlen. simpl in Hlen.
    apply NoDup_app in Hnodup as (Hnodup & Hfresh & _).
    rewrite foldl_snoc, IH;
      [|done|intros j Hj; apply Hlt, elem_of_app; by left|lia].
    rewrite settleStep_slots;
      [|intros Hi; apply (Hfresh i Hi); constructor
       |apply Hlt, elem_of_app; right; constructor].
    rewrite length_app. simpl. f_equal; [lia|].
    rewrite decide_False; [done | lia].
Qed.

(** Once every promise has settled, in whatever order, the combined one
    has resolved with the results by position. *)
Lemma Promise_all_settle_positional order :
  order ≡ₚ seq 0 (length results) →
  Promise_all_settle results order = Some results.
Proof.
  intros Hperm. unfold Promise_all_settle. fold settleStep.
  assert (NoDup order) as Hnodup by (rewrite Hperm; apply NoDup_seq).
  assert (∀ i, i ∈ order ↔ i < length results) as Hin.
  { intros i. rewrite Hperm, elem_of_seq. lia. }
  assert (length order = length results) as Hlen.
  { by rewrite Hperm, length_seq. }
  destruct order as [|i done _] using rev_ind.
  - simpl in *. symmetry in Hlen. apply length_zero_iff_nil in Hlen.
    rewrite Hlen. reflexivity.
  - rewrite length_app in Hlen. simpl in Hlen.
    apply NoDup_app in Hnodup as (Hnodup & Hfresh & _).
    rewrite foldl_snoc, settle_prefix;
      [|done|intros j Hj; apply Hin, elem_of_app; by left|lia].
    rewrite settleStep_slots;
      [|intros Hi; apply (Hfresh i Hi); constructor
       |apply Hin, elem_of_app; right; constructor].
    simpl. rewrite decide_True by lia.
    rewrite slots_all by (intros; by apply Hin).
    by apply mapM_fmap_Some.
Qed.

End PromiseAllSettle.

(** C8.  For the per-source results of a run of [searchAllNews], whatever
    the order in which the per-source promises settle, the merged list is
    the same: the one the run returns. *)
Theorem merged_order_independent_of_settling
    env net getTime sources filters tr results order1 order2 :
  fst (Promise_all (searchBranch env net filters <$> sources) tr) = Fulfilled results →
  order1 ≡ₚ seq 0 (length sources) →
  order2 ≡ₚ seq 0 (length sources) →
  mergeSettled getTime results order1 = mergeSettled getTime results order2
  ∧ Fulfilled <$> mergeSettled getTime results order1
    = Some (fst (searchAllNews env net getTime sources filters tr)).
Proof.
  intros Hresults Horder1 Horder2.
  destruct (searchAllNews_run env net getTime sources filters tr)
    as (results' & cs & (Hfst & _ & _ & _ & Hpos & _) & Hout & _).
  rewrite Hresults in Hfst. injection Hfst as <-.
  apply Forall2_length in Hpos.
  unfold mergeSettled.
  rewrite !Promise_all_settle_positional by (by rewrite <- Hpos).
  simpl. by rewrite Hout.
Qed.

Lemma merged_order_independent_of_settling_witness :
  mergeSettled sampleTime threeResults [2; 0; 1]%nat
  = mergeSettled sampleTime threeResults [1; 2; 0]%nat
  ∧ Fulfilled <$> mergeSettled sampleTime threeResults [2; 0; 1]%nat
    = Some (fst (searchAllNews sampleEnv threeSources sampleTime
                   ["newsapi"; "guardian"; "nytimes"] noFilters empty_trace)).
Proof.
  apply (merged_order_independent_of_settling sampleEnv threeSources sampleTime
           ["newsapi"; "guardian"; "nytimes"] noFilters empty_trace threeResults
           [2; 0; 1]%nat [1; 2; 0]%nat).
  - reflexivity.
  - apply (Permutation_cons_append [0; 1]%nat 2%nat).
  - symmetry. apply (Permutation_cons_append [1; 2]%nat 0%nat).
Defined.

(** * Further properties of the code *)

(** ** The requests a run sends *)

Definition clientOf (c : AdapterCall) : Client :=
  match c with
  | CallNewsApi _ _ _ _ _ => newsApiClient
  | CallNYT _ _ _ _ => nytClient
  | CallGuardian _ _ _ _ _ => guardianClient
  end.

(** What is known of the request an adapter call sends: its client; for the
    Guardian the endpoint; for the NYT adapter called with a section alone,
    the whole request. *)
Definition requestOf (env : Env) (c : AdapterCall) (r : Request) : Prop :=
  client r = clientOf c
  ∧ match c with
    | CallNewsApi query _ _ _ _ =>
        endpoint r = (if JS.truthy query then "/everything" else "/top-headlines")
        ∧ params r !! "pageSize" = Some "20"
    | CallNYT section None None None =>
        endpoint r = "/content/all/" +:+ default "all" section +:+ ".json"
        ∧ params r = set_opt "api-key" (VITE_NY_TIMES_API_KEY env) ∅
    | CallNYT _ _ _ _ => True
    | CallGuardian _ _ _ _ _ => endpoint r = "/search"
    end.

(** A settled call and its request: the request is the adapter's, and the
    articles of a fulfilment are articles of that adapter. *)
Definition callRecord (env : Env) (net : nat → Request → HttpResult)
  (co : AdapterCall * Outcome (list NewsArticle)) (r : Request) : Prop :=
  requestOf env co.1 r
  ∧ ∀ l x, co.2 = Fulfilled l → x ∈ l → produced env net (clientOf co.1) x.

Section RequestTrace.

Context (env : Env) (net : nat → Request → HttpResult).

(** A branch adds as many requests as calls, each the request of its
    call. *)
Definition traced (call : option AdapterCall) (m : Async (list NewsArticle)) : Prop :=
  ∀ tr, ∃ rs cs,
    snd (m tr) = {| requests := requests tr ++ rs; calls := calls tr ++ cs |}
    ∧ cs.*1 = option_list call
    ∧ Forall2 (callRecord env net) cs rs.

Lemma traced_none : traced None (try_catch (ret []) (λ _, ret [])).
Proof.
  intros tr. exists [], []. rewrite try_catch_ret_nil. simpl.
  rewrite !app_nil_r. destruct tr; repeat split; constructor.
Qed.

Lemma traced_call c (m : Async (list NewsArticle)) :
  (∀ tr, ∃ r,
     requestOf env c r
     ∧ snd (m tr) = {| requests := requests tr ++ [r];
                       calls := calls tr ++ [(c, fst (m tr))] |}) →
  (∀ tr l x, fst (m tr) = Fulfilled l → x ∈ l → produced env net (clientOf c) x) →
  traced (Some c) (try_catch m (λ _, ret [])).
Proof.
  intros Hone Hprod tr. destruct (Hone tr) as (r & Hr & Htr).
  exists [r], [(c, fst (m tr))]. rewrite try_catch_ret_nil. simpl.
  repeat split; [done|]. constructor; [|constructor].
  split; [done|]. simpl. intros l x. apply Hprod.
Qed.

Lemma fetchNewsApiArticles_traced q c f t a :
  traced (Some (CallNewsApi q c f t a))
    (try_catch (fetchNewsApiArticles net q c f t a) (λ _, ret [])).
Proof.
  apply traced_call.
  - intros tr. unfold fetchNewsApiArticles. rewrite invoked_run.
    unfold bind, http_get. cbv zeta.
    eexists. split; [|destruct (net _ _) as [|[]]; reflexivity].
    split; [done|]. split; [done|]. simpl. apply lookup_insert_eq.
  - intros tr l x Hl Hx. by econstructor.
Qed.

Lemma fetchNYTArticles_traced s q f t :
  traced (Some (CallNYT s q f t))
    (try_catch (fetchNYTArticles env net s q f t) (λ _, ret [])).
Proof.
  apply traced_call.
  - intros tr. unfold fetchNYTArticles. rewrite invoked_run.
    unfold bind, http_get.
    destruct (JS.truthy q) eqn:Hq; cbv zeta; eexists;
      (split; [|destruct (net _ _) as [|[]]; reflexivity]);
      (split; [done|]); simpl.
    + destruct q as [[|? ?]|]; [done | | done]. by destruct f, t.
    + destruct q as [[|? ?]|]; [by destruct f, t | done |].
      destruct f as [f|]; [done|]. destruct t as [t|]; [done|]. done.
  - intros tr l x Hl Hx. by econstructor.
Qed.

Lemma fetchGuardianArticles_traced q s f t a :
  traced (Some (CallGuardian q s f t a))
    (try_catch (fetchGuardianArticles env net q s f t a) (λ _, ret [])).
Proof.
  apply traced_call.
  - intros tr. unfold fetchGuardianArticles. rewrite invoked_run.
    unfold bind, http_get. cbv zeta.
    eexists. split; [|destruct (net _ _) as [|[]]; reflexivity].
    by split.
  - intros tr l x Hl Hx. by econstructor.
Qed.

Lemma searchBranch_traced filters src :
  traced (searchCallOf filters src) (searchBranch env net filters src).
Proof.
  unfold searchCallOf, searchBranch.
  destruct (String.eqb src "nytimes" && JS.truthy (searchQuery filters));
    [apply traced_none|].
  destruct (String.eqb src "guardian"); [apply fetchGuardianArticles_traced|].
  destruct (String.eqb src "nytimes"); [apply fetchNYTArticles_traced|].
  destruct (String.eqb src "newsapi"); [apply fetchNewsApiArticles_traced|].
  apply traced_none.
Qed.

Lemma headlinesBranch_traced category src :
  traced (headlinesCallOf category src) (headlinesBranch env net category src).
Proof.
  unfold headlinesCallOf, headlinesBranch.
  destruct (String.eqb src "guardian"); [apply fetchGuardianArticles_traced|].
  destruct (String.eqb src "nytimes"); [apply fetchNYTArticles_traced|].
  destruct (String.eqb src "newsapi"); [apply fetchNewsApiArticles_traced|].
  apply traced_none.
Qed.

(** The trace of a whole run of the branches. *)
Definition tracedRun (callOf : NewsSource → option AdapterCall)
  (sources : list NewsSource) (tr tr' : Trace) : Prop :=
  ∃ rs cs,
    tr' = {| requests := requests tr ++ rs; calls := calls tr ++ cs |}
    ∧ cs.*1 = omap callOf sources
    ∧ Forall2 (callRecord env net) cs rs.

Lemma Promise_all_traced (branch : NewsSource → Async (list NewsArticle)) callOf :
  (∀ src, traced (callOf src) (branch src)) →
  ∀ sources tr,
    tracedRun callOf sources tr (snd (Promise_all (branch <$> sources) tr)).
Proof.
  intros Hbranch sources.
  induction sources as [|src sources IH]; intros tr.
  - exists [], []. simpl. rewrite !app_nil_r. destruct tr; repeat split; constructor.
  - destruct (Hbranch src tr) as (rs1 & cs1 & Htr1 & Hcall1 & Hrec1).
    simpl. destruct (branch src tr) as [o1 tr1]. simpl in *. subst tr1.
    match goal with |- context [Promise_all _ ?t] => destruct (IH t) as
        (rs & cs & Hsnd & Hcalls & Hrec) end.
    destruct (Promise_all _ _) as [os tr2]. simpl in *. subst tr2.
    exists (rs1 ++ rs), (cs1 ++ cs). simpl. rewrite !app_assoc. repeat split.
    + rewrite fmap_app, Hcall1, Hcalls. by destruct (callOf src).
    + by apply Forall2_app.
Qed.

Lemma try_catch_rethrow_trace {A} (m : Async A) tr :
  snd (try_catch m (λ e, throw e) tr) = snd (m tr).
Proof. unfold try_catch, throw. by destruct (m tr) as [[a|e] tr']. Qed.

Lemma bind_ret_trace {A B} (m : Async A) (f : A → B) tr :
  snd (bind m (λ a, ret (f a)) tr) = snd (m tr).
Proof. unfold bind, ret. by destruct (m tr) as [[a|e] tr']. Qed.

Lemma searchAllNews_traced getTime sources filters tr :
  tracedRun (searchCallOf filters) sources tr
    (snd (searchAllNews env net getTime sources filters tr)).
Proof.
  unfold searchAllNews. rewrite try_catch_rethrow_trace.
  cbv zeta. rewrite bind_ret_trace.
  apply Promise_all_traced, searchBranch_traced.
Qed.

Lemma getTopHeadlines_traced getTime sources category tr :
  tracedRun (headlinesCallOf category) sources tr
    (snd (getTopHeadlines env net getTime sources category tr)).
Proof.
  unfold getTopHeadlines. rewrite try_catch_rethrow_trace.
  cbv zeta. rewrite bind_ret_trace.
  apply Promise_all_traced, headlinesBranch_traced.
Qed.

End RequestTrace.

Section RunProperties.

Context (env : Env) (net : nat → Request → HttpResult) (getTime : string → option Z).

Lemma queryFn_traced sources filters tr :
  ∃ callOf,
    tracedRun env net callOf sources tr
      (snd (queryFn env net getTime sources filters tr)).
Proof.
  unfold queryFn. destruct (isSearching filters).
  - exists (searchCallOf filters). apply searchAllNews_traced.
  - exists (headlinesCallOf (category filters)). apply getTopHeadlines_traced.
Qed.

Lemma tracedRun_calls callOf sources tr tr' cs :
  tracedRun env net callOf sources tr tr' →
  calls tr' = calls tr ++ cs →
  ∃ rs, tr' = {| requests := requests tr ++ rs; calls := calls tr ++ cs |}
        ∧ cs.*1 = omap callOf sources
        ∧ Forall2 (callRecord env net) cs rs.
Proof.
  intros (rs & cs' & -> & Hcs & Hrec) Hcalls. simpl in Hcalls.
  apply app_inv_head in Hcalls as ->. by exists rs.
Qed.

Lemma length_omap_le {A B} (f : A → option B) (l : list A) :
  (length (omap f l) ≤ length l)%nat.
Proof.
  induction l as [|x l IH]; simpl; [done|].
  destruct (f x); simpl; [apply le_n_S, IH | apply le_S, IH].
Qed.

End RunProperties.

(** ** The services never reject *)

(** X1.  Whatever the transport does, [searchAllNews] and [getTopHeadlines]
    fulfil; so once the fetch has settled [useCombinedNews] reports neither
    an error nor loading, and while it has not, it reports loading and no
    error. *)
Theorem services_never_reject env net getTime sources filters category settled tr :
  (∃ out, fst (searchAllNews env net getTime sources filters tr) = Fulfilled out)
  ∧ (∃ out, fst (getTopHeadlines env net getTime sources category tr) = Fulfilled out)
  ∧ isError (useCombinedNews env net getTime sources filters settled tr) = false
  ∧ error (useCombinedNews env net getTime sources filters settled tr) = None
  ∧ isLoading (useCombinedNews env net getTime sources filters settled tr)
    = negb settled.
Proof.
  split; [|split].
  - destruct (searchAllNews_run env net getTime sources filters tr)
      as (results & cs & _ & Hout & _). eauto.
  - destruct (getTopHeadlines_run env net getTime sources category tr)
      as (results & cs & _ & Hout & _). eauto.
  - unfold useCombinedNews, useMultiSourceNews, useQuery; simpl.
    destruct settled; [|done].
    destruct (queryFn_run env net getTime sources filters tr) as (cs & _ & -> & _).
    done.
Qed.

(** ** The failed sources *)

(** X2.  [failedSources] keeps the order of [sources] and drops some of
    them; when there is no article (while loading, or after a fetch that
    brought none) it is all of [sources], and [hasPartialData] is false. *)
Theorem failed_sources_all_without_articles
    env net getTime sources filters settled tr :
  let r := useCombinedNews env net getTime sources filters settled tr in
  failedSources r `sublist_of` sources
  ∧ (settled = false → articles r = [])
  ∧ (articles r = [] → failedSources r = sources ∧ hasPartialData r = false).
Proof.
  cbv zeta. split; [apply sublist_filter|]. split.
  - by intros ->.
  - unfold useCombinedNews; simpl. intros ->. split; [|done].
    unfold failedSourcesOf. induction sources as [|src l IH]; [done|].
    rewrite filter_cons_True by done. f_equal. apply IH.
Qed.

(** X7.  The heuristic is right about the Guardian: if a Guardian call of
    the fetch fulfilled with at least one article, ['guardian'] is not
    among the failed sources. *)
Theorem guardian_with_articles_not_failed
    env net getTime sources filters tr cs c l :
  calls (snd (queryFn env net getTime sources filters tr)) = calls tr ++ cs →
  (c, Fulfilled l) ∈ cs →
  clientOf c = guardianClient →
  l ≠ [] →
  "guardian" ∉ failedSources (useCombinedNews env net getTime sources filters true tr).
Proof.
  intros Hcalls Hin Hclient Hne Hfailed.
  destruct l as [|x l]; [done|]. clear Hne.
  destruct (queryFn_traced env net getTime sources filters tr) as [callOf Hrun].
  destruct (tracedRun_calls env net _ _ _ _ cs Hrun Hcalls) as (rs & _ & _ & Hrec).
  apply list_elem_of_lookup in Hin as [i Hi].
  destruct (Forall2_lookup_l _ _ _ _ _ Hrec Hi) as (r & _ & _ & Hprod).
  specialize (Hprod (x :: l) x eq_refl). simpl in Hprod. rewrite Hclient in Hprod.
  apply produced_normalisedFrom in Hprod as (raw & Hraw); [|constructor].
  apply elem_of_failedSourcesOf in Hfailed as [_ Hnone].
  apply (Hnone x); [|by rewrite Hraw].
  unfold useCombinedNews, useMultiSourceNews, useQuery; simpl.
  destruct (queryFn_run env net getTime sources filters tr) as (cs' & Hcalls' & -> & _).
  rewrite Hcalls in Hcalls'. apply app_inv_head in Hcalls' as <-. simpl.
  rewrite Array_sort_perm. apply elem_of_concat. exists (x :: l).
  split; [|constructor].
  apply list_elem_of_fmap. exists (Fulfilled (x :: l)). split; [done|].
  apply list_elem_of_fmap. exists (c, Fulfilled (x :: l)). split; [done|].
  by eapply list_elem_of_lookup_2.
Qed.

Lemma guardian_with_articles_not_failed_witness :
  "guardian" ∉
    failedSources
      (useCombinedNews sampleEnv threeSources sampleTime
         ["newsapi"; "guardian"; "nytimes"] noFilters true empty_trace).
Proof.
  eapply (guardian_with_articles_not_failed sampleEnv threeSources sampleTime
            ["newsapi"; "guardian"; "nytimes"] noFilters empty_trace _
            (CallGuardian None None None None None)
            [normalizeGuardian (guardianRaw "a" "2024-01-01T00:00:00Z");
             normalizeGuardian (guardianRaw "b" "2024-01-02T00:00:00Z")]).
  - vm_compute. reflexivity.
  - apply list_elem_of_lookup. exists 1%nat. reflexivity.
  - reflexivity.
  - discriminate.
Defined.

(** ** One request for each adapter call *)

(** X3.  A run of [searchAllNews], and of [getTopHeadlines], sends one
    request for each adapter call it makes, to the client of that adapter
    and in the order of the calls; nothing is sent twice, and there are at
    most as many requests as selected sources. *)
Theorem one_request_per_adapter_call env net getTime sources filters category tr :
  (∃ rs cs,
     snd (searchAllNews env net getTime sources filters tr)
     = {| requests := requests tr ++ rs; calls := calls tr ++ cs |}
     ∧ client <$> rs = clientOf <$> cs.*1
     ∧ (length rs ≤ length sources)%nat)
  ∧ (∃ rs cs,
       snd (getTopHeadlines env net getTime sources category tr)
       = {| requests := requests tr ++ rs; calls := calls tr ++ cs |}
       ∧ client <$> rs = clientOf <$> cs.*1
       ∧ (length rs ≤ length sources)%nat).
Proof.
  assert (∀ callOf tr',
            tracedRun env net callOf sources tr tr' →
            ∃ rs cs,
              tr' = {| requests := requests tr ++ rs; calls := calls tr ++ cs |}
              ∧ client <$> rs = clientOf <$> cs.*1
              ∧ (length rs ≤ length sources)%nat) as Hrun.
  { intros callOf tr' (rs & cs & -> & Hcs & Hrec). exists rs, cs.
    split; [done|]. split.
    - clear Hcs. induction Hrec as [|[c o] r cs rs [[Hclient _] _] _ IH]; [done|].
      simpl in *. f_equal; [exact Hclient | exact IH].
    - rewrite <- (Forall2_length _ _ _ Hrec), <- (length_fmap fst), Hcs.
      apply length_omap_le. }
  split.
  - eapply Hrun, searchAllNews_traced.
  - eapply Hrun, getTopHeadlines_traced.
Qed.

(** ** The NYT requests of the services *)

Lemma set_opt_api_key_only (key : option string) (k : string) :
  k ≠ "api-key" → set_opt "api-key" key ∅ !! k = None.
Proof.
  intros Hk. destruct key as [s|]; simpl.
  - by rewrite lookup_insert_ne.
  - apply lookup_empty.
Qed.

(** X4.  Every request the services send to the NYT client goes to the
    section listing, [/content/all/<section>.json] with the category (or
    [all]) as section, and carries no [q], [begin_date] or [end_date]: the
    query and the dates of the filters never reach the NYT. *)
Theorem nyt_requests_ignore_query_and_dates
    env net getTime sources filters cat tr :
  (∀ r, r ∈ requests (snd (searchAllNews env net getTime sources filters tr)) →
        r ∉ requests tr → client r = nytClient →
        endpoint r
        = "/content/all/" +:+ JS.or_default (category filters) "all"
          +:+ ".json"
        ∧ params r !! "q" = None
        ∧ params r !! "begin_date" = None
        ∧ params r !! "end_date" = None)
  ∧ (∀ r, r ∈ requests (snd (getTopHeadlines env net getTime sources cat tr)) →
          r ∉ requests tr → client r = nytClient →
          endpoint r = "/content/all/" +:+ JS.or_default cat "all" +:+ ".json"
          ∧ params r !! "q" = None
          ∧ params r !! "begin_date" = None
          ∧ params r !! "end_date" = None).
Proof.
  assert (∀ callOf section tr',
            (∀ src c, callOf src = Some c → clientOf c = nytClient →
                      c = CallNYT (Some section) None None None) →
            tracedRun env net callOf sources tr tr' →
            ∀ r, r ∈ requests tr' → r ∉ requests tr → client r = nytClient →
                 endpoint r = "/content/all/" +:+ section +:+ ".json"
                 ∧ params r !! "q" = None
                 ∧ params r !! "begin_date" = None
                 ∧ params r !! "end_date" = None) as Hrun.
  { intros callOf section tr' HcallOf (rs & cs & -> & Hcs & Hrec) r Hr Hnew Hclient.
    simpl in Hr. apply elem_of_app in Hr as [Hr|Hr]; [done|].
    apply list_elem_of_lookup in Hr as [i Hi].
    destruct (Forall2_lookup_r _ _ _ _ _ Hrec Hi) as ([c o] & Hco & [Hclient' Hreq] & _).
    simpl in *. rewrite Hclient in Hclient'.
    assert (c ∈ omap callOf sources) as (src & _ & Hsrc)%list_elem_of_omap.
    { rewrite <- Hcs. apply list_elem_of_fmap. exists (c, o).
      split; [done|]. by eapply list_elem_of_lookup_2. }
    rewrite (HcallOf src c Hsrc (eq_sym Hclient')) in Hreq.
    destruct Hreq as [-> ->]. simpl.
    split; [done|]. by rewrite !set_opt_api_key_only. }
  split.
  - eapply Hrun; [|apply searchAllNews_traced].
    intros src c Hc Hnyt. unfold searchCallOf in Hc.
    destruct (String.eqb src "nytimes" && _); [done|].
    destruct (String.eqb src "guardian"); [by injection Hc as <-|].
    destruct (String.eqb src "nytimes"); [by injection Hc as <-|].
    destruct (String.eqb src "newsapi"); [by injection Hc as <-|done].
  - eapply Hrun; [|apply getTopHeadlines_traced].
    intros src c Hc Hnyt. unfold headlinesCallOf in Hc.
    destruct (String.eqb src "guardian"); [by injection Hc as <-|].
    destruct (String.eqb src "nytimes"); [by injection Hc as <-|].
    destruct (String.eqb src "newsapi"); [by injection Hc as <-|done].
Qed.

(** ** More on the articles of the adapters *)






(** ** The date encoding of the NYT adapter *)

Fixpoint noDash (s : string) : Prop :=
  match s with
  | EmptyString => True
  | String c s' => c ≠ "-"%char ∧ noDash s'
  end.

Lemma remove_dashes_app s1 s2 :
  JS.remove_dashes (s1 +:+ s2) = JS.remove_dashes s1 +:+ JS.remove_dashes s2.
Proof.
  induction s1 as [|c s1 IH]; simpl; [done|].
  destruct (Ascii.eqb c "-"); simpl; by rewrite IH.
Qed.

Lemma remove_dashes_noDash s : noDash s → JS.remove_dashes s = s.
Proof.
  induction s as [|c s IH]; simpl; [done|]. intros [Hc Hs].
  destruct (Ascii.eqb_spec c "-"); [done|]. by rewrite IH.
Qed.

(** X8.  [replace(/-/g, '')], the encoding of [begin_date] and [end_date]:
    the result holds no dash; a text without dashes is unchanged; and
    [YYYY-MM-DD] becomes [YYYYMMDD], whatever the three parts are, as long
    as they hold no dash themselves. *)
Theorem remove_dashes_compact_date s y m d :
  noDash (JS.remove_dashes s)
  ∧ (noDash s → JS.remove_dashes s = s)
  ∧ (noDash y → noDash m → noDash d →
     JS.remove_dashes (y +:+ "-" +:+ m +:+ "-" +:+ d) = y +:+ m +:+ d).
Proof.
  split; [|split; [apply remove_dashes_noDash|]].
  - induction s as [|c s IH]; simpl; [done|].
    destruct (Ascii.eqb_spec c "-"); [done|]. by split.
  - intros Hy Hm Hd. rewrite !remove_dashes_app.
    rewrite (remove_dashes_noDash y), (remove_dashes_noDash m),
      (remove_dashes_noDash d) by done.
    reflexivity.
Qed.

Example remove_dashes_iso_date : JS.remove_dashes "2024-01-31" = "20240131".
Proof. reflexivity. Qed.

(** ** [src/context/SearchContext.tsx] and [src/context/NewsContext.tsx] *)

Module SearchContext.

Record DateRange := { fromDate : string; toDate : string }.

Record State := {
  searchQuery : string;
  dateRange : DateRange;
  selectedCategory : string;
  isSearching : bool;
}.

(** The state of a fresh [SearchProvider]. *)
Definition initial : State :=
  {| searchQuery := ""; dateRange := {| fromDate := ""; toDate := "" |};
     selectedCategory := ""; isSearching := false |}.

Definition setSearchQuery (query : string) (s : State) : State :=
  {| searchQuery := query; dateRange := dateRange s;
     selectedCategory := selectedCategory s; isSearching := isSearching s |}.

Definition setDateRange (range : DateRange) (s : State) : State :=
  {| searchQuery := searchQuery s; dateRange := range;
     selectedCategory := selectedCategory s; isSearching := isSearching s |}.

Definition setSelectedCategory (category : string) (s : State) : State :=
  {| searchQuery := searchQuery s; dateRange := dateRange s;
     selectedCategory := category; isSearching := isSearching s |}.

Definition setIsSearching (flag : bool) (s : State) : State :=
  {| searchQuery := searchQuery s; dateRange := dateRange s;
     selectedCategory := selectedCategory s; isSearching := flag |}.

(** [executeSearch] sets the flag (and logs). *)
Definition executeSearch (s : State) : State := setIsSearching true s.

End SearchContext.

(** The sources a fresh [NewsProvider] selects. *)
Definition allSources : list NewsSource := ["newsapi"; "guardian"; "nytimes"].

(** ** [src/App.tsx]: the news feed *)

(** What [NewsFeed] renders: the spinner, the error page, or the feed with
    the banner (and the sources it names) when it is shown, the cards, and
    the message of the empty state when there is no card. *)
Inductive View :=
| Spinner
| FailedToLoad
| Feed (banner : option (list NewsSource)) (cards : list NewsArticle)
    (emptyState : option string).

Section NewsFeed.

Context (env : Env) (net : nat → Request → HttpResult) (getTime : string → option Z).

(** [String.prototype.trim]. *)
Context (trim : string → string).

(** The filters [NewsFeed] hands to [useCombinedNews]. *)
Definition feedFilters (s : SearchContext.State) : NewsFilters :=
  if SearchContext.isSearching s then
    {| searchQuery := Some (trim (SearchContext.searchQuery s));
       category := Some (SearchContext.selectedCategory s);
       fromDate := Some (SearchContext.fromDate (SearchContext.dateRange s));
       toDate := Some (SearchContext.toDate (SearchContext.dateRange s));
       author_filter := None |}
  else
    {| searchQuery := None; category := None; fromDate := None;
       toDate := None; author_filter := None |}.

Definition NewsFeed (selectedSources : list NewsSource) (s : SearchContext.State)
  (settled : bool) (tr : Trace) : View :=
  let r := useCombinedNews env net getTime selectedSources (feedFilters s) settled tr in
  if isLoading r then Spinner
  else if isError r then FailedToLoad
  else
    Feed
      (if hasPartialData r && bool_decide (0 < length (failedSources r))%nat
       then Some (failedSources r) else None)
      (articles r)
      (if bool_decide (length (articles r) = 0%nat) then
         Some (if SearchContext.isSearching s
               then "No articles found matching your search criteria."
               else "No articles available.")
       else None).

End NewsFeed.

Lemma produced_from_net env net c x :
  produced env net c x → ∃ n r data, net n r = HttpOk data.
Proof.
  destruct 1 as [q c f t a tr l x Hl Hx|s q f t tr l x Hl Hx|q s f t a tr l x Hl Hx].
  - unfold fetchNewsApiArticles in Hl. rewrite invoked_run in Hl.
    unfold bind, http_get in Hl; simpl in Hl.
    destruct (net _ _) eqn:Hnet; [discriminate | eauto].
  - unfold fetchNYTArticles in Hl. rewrite invoked_run in Hl.
    unfold bind, http_get in Hl; simpl in Hl.
    destruct (net _ _) eqn:Hnet; [discriminate | eauto].
  - unfold fetchGuardianArticles in Hl. rewrite invoked_run in Hl.
    unfold bind, http_get in Hl; simpl in Hl.
    destruct (net _ _) eqn:Hnet; [discriminate | eauto].
Qed.

Lemma NewsFeed_settled env net getTime trim sources s tr :
  let r := useCombinedNews env net getTime sources (feedFilters trim s) true tr in
  NewsFeed env net getTime trim sources s true tr
  = Feed
      (if hasPartialData r && bool_decide (0 < length (failedSources r))%nat
       then Some (failedSources r) else None)
      (articles r)
      (if bool_decide (length (articles r) = 0%nat) then
         Some (if SearchContext.isSearching s
               then "No articles found matching your search criteria."
               else "No articles available.")
       else None).
Proof.
  cbv zeta. unfold NewsFeed.
  pose proof (queryFn_run env net getTime sources (feedFilters trim s) tr)
    as (cs & _ & Hfst & _).
  unfold useCombinedNews, useMultiSourceNews, useQuery. rewrite Hfst. reflexivity.
Qed.

Lemma failedSourcesOf_nonempty sources arts :
  (0 < length (failedSourcesOf sources arts))%nat ↔
  ∃ src, src ∈ sources ∧ src ∈ failedSourcesOf sources arts.
Proof.
  split.
  - destruct (failedSourcesOf sources arts) as [|src l] eqn:Hf; simpl; [lia|].
    intros _. exists src. split; [|constructor].
    assert (src ∈ failedSourcesOf sources arts) as Hsrc by (rewrite Hf; constructor).
    by apply elem_of_failedSourcesOf in Hsrc as [? _].
  - intros (src & _ & Hsrc). destruct (failedSourcesOf sources arts); [|simpl; lia].
    by apply elem_of_nil in Hsrc.
Qed.

(** X9.  Once the fetch has settled, [NewsFeed] shows the feed, and in it
    the banner exactly when there is an article and at least one, but not
    all, of the selected sources are classified as failed; the banner names
    the failed sources. *)
Theorem banner_iff_some_but_not_all_failed env net getTime trim sources s tr :
  let r := useCombinedNews env net getTime sources (feedFilters trim s) true tr in
  ∃ banner emptyState,
    NewsFeed env net getTime trim sources s true tr
    = Feed banner (articles r) emptyState
    ∧ (is_Some banner ↔
         articles r ≠ []
         ∧ (∃ src, src ∈ sources ∧ src ∈ failedSources r)
         ∧ (∃ src, src ∈ sources ∧ src ∉ failedSources r))
    ∧ (∀ names, banner = Some names → names = failedSources r).
Proof.
  cbv zeta. rewrite NewsFeed_settled. cbv zeta.
  eexists _, _. split; [reflexivity|].
  unfold useCombinedNews; simpl.
  set (arts := default [] _).
  pose proof (hasPartialDataOf_true sources arts) as Hpartial.
  pose proof (failedSourcesOf_nonempty sources arts) as Hsome.
  split.
  - destruct (hasPartialDataOf sources arts) eqn:Hp; simpl.
    + case_bool_decide as Hlen.
      * split; [intros _ | by eexists]. apply Hsome in Hlen.
        destruct Hpartial as [Hp1 _]. destruct (Hp1 eq_refl) as [Hne Hnot].
        split; [done|]. split; done.
      * split; [intros [? ?]; discriminate|].
        intros (_ & Hfail & _). by apply Hsome in Hfail.
    + split; [intros [? ?]; discriminate|]. intros (Hne & _ & Hnot).
      destruct Hpartial as [_ Hp']. discriminate Hp'. by split.
  - intros names. destruct (_ && _); intros [=]; done.
Qed.

(** X10.  When every request fails, the settled feed is neither the error
    page nor a banner: it has no card and shows the message of the empty
    state. *)
Theorem all_requests_fail_shows_empty_state env net getTime trim sources s tr :
  (∀ n r, net n r = HttpError) →
  NewsFeed env net getTime trim sources s true tr
  = Feed None []
      (Some (if SearchContext.isSearching s
             then "No articles found matching your search criteria."
             else "No articles available.")).
Proof.
  intros Hnet. rewrite NewsFeed_settled. cbv zeta.
  assert (articles (useCombinedNews env net getTime sources (feedFilters trim s) true tr)
          = []) as Hnone.
  { apply elem_of_nil_inv. intros x Hx.
    apply useCombinedNews_articles in Hx as [cl Hx].
    apply produced_from_net in Hx as (n & r & data & Hdata).
    by rewrite Hnet in Hdata. }
  rewrite Hnone.
  unfold useCombinedNews in *. simpl in *. rewrite Hnone. reflexivity.
Qed.

Lemma all_requests_fail_shows_empty_state_witness :
  NewsFeed sampleEnv (netOf HttpError HttpError HttpError) sampleTime (λ q, q)
    allSources SearchContext.initial true empty_trace
  = Feed None []
      (Some (if SearchContext.isSearching SearchContext.initial
             then "No articles found matching your search criteria."
             else "No articles available.")).
Proof.
  apply (all_requests_fail_shows_empty_state sampleEnv
           (netOf HttpError HttpError HttpError) sampleTime (λ q, q)
           allSources SearchContext.initial empty_trace).
  intros n r. unfold netOf. by destruct (client r).
Defined.

(** X11.  What [NewsFeed] makes the hook fetch.  Until [executeSearch] has
    set the flag it is the top headlines with no category, whatever is
    typed or selected.  With the flag set: the top headlines of the
    selected category when the query is blank and no date is given, and a
    search with the trimmed query otherwise. *)
Theorem feed_fetch_mode env net getTime trim sources s :
  (SearchContext.isSearching s = false →
   queryFn env net getTime sources (feedFilters trim s)
   = getTopHeadlines env net getTime sources None)
  ∧ (SearchContext.isSearching s = true →
     trim (SearchContext.searchQuery s) = "" →
     SearchContext.dateRange s = {| SearchContext.fromDate := "";
                                    SearchContext.toDate := "" |} →
     queryFn env net getTime sources (feedFilters trim s)
     = getTopHeadlines env net getTime sources
         (Some (SearchContext.selectedCategory s)))
  ∧ (SearchContext.isSearching s = true →
     trim (SearchContext.searchQuery s) ≠ ""
     ∨ SearchContext.fromDate (SearchContext.dateRange s) ≠ ""
     ∨ SearchContext.toDate (SearchContext.dateRange s) ≠ "" →
     queryFn env net getTime sources (feedFilters trim s)
     = searchAllNews env net getTime sources (feedFilters trim s)).
Proof.
  unfold queryFn, feedFilters. split; [|split].
  - by intros ->.
  - intros -> Hq Hdates. unfold isSearching. simpl. by rewrite Hq, Hdates.
  - intros -> Hsome. unfold isSearching. rewrite !truthy_js_or. simpl.
    destruct (trim _) as [|? ?], (SearchContext.fromDate _) as [|? ?],
      (SearchContext.toDate _) as [|? ?]; simpl; try done.
    by destruct Hsome as [?|[?|?]].
Qed.

(** ** The filter drawer *)

Module FilterDrawer.

(** The form values of the drawer. *)
Record Local := {
  localDateRange : SearchContext.DateRange;
  localCategory : string;
  localSources : list string;
}.

(** What the drawer reads and writes of the two contexts. *)
Record App := {
  search : SearchContext.State;
  selectedSources : list NewsSource;
}.

Definition includes (x : string) (l : list string) : bool := bool_decide (x ∈ l).

(** The display name of a selected source. *)
Definition displayName (src : NewsSource) : string :=
  if String.eqb src "newsapi" then "BBC"
  else if String.eqb src "guardian" then "The Guardian"
  else if String.eqb src "nytimes" then "New York Times"
  else "".

Definition localSourcesOf (selected : list NewsSource) : list string :=
  if bool_decide (length selected = 0%nat)
     || (includes "newsapi" selected && includes "guardian" selected
         && includes "nytimes" selected)
  then ["All Sources"]
  else displayName <$> selected.

(** The form as the effect on [dateRange], [selectedCategory] and
    [selectedSources] leaves it. *)
Definition syncLocal (app : App) : Local :=
  {| localDateRange := SearchContext.dateRange (search app);
     localCategory :=
       JS.or_default (Some (SearchContext.selectedCategory (search app))) "";
     localSources := localSourcesOf (selectedSources app) |}.

(** The source id of a display name. *)
Definition sourceId (display : string) : NewsSource :=
  if String.eqb display "New York Times" then "nytimes"
  else if String.eqb display "The Guardian" then "guardian"
  else if String.eqb display "BBC" then "newsapi"
  else if String.eqb display "Reuters" || String.eqb display "Associated Press"
  then "newsapi"
  else "newsapi".

Definition newSelectedSourcesOf (locals : list string) : list NewsSource :=
  if includes "All Sources" locals then allSources else sourceId <$> locals.

Definition hasSourceChange (new selected : list NewsSource) : bool :=
  negb (length new =? length selected)%nat
  || negb (forallb (λ src, includes src selected) new)
  || negb (forallb (λ src, includes src new) selected).

Section Handlers.

(** The [onClose] of the props. *)
Context (onClose : App → App).

Definition handleApplyFilters (l : Local) (app : App) : App :=
  let newCategory := localCategory l in
  let newDateRange :=
    {| SearchContext.fromDate := SearchContext.fromDate (localDateRange l);
       SearchContext.toDate := SearchContext.toDate (localDateRange l) |} in
  let newSelectedSources := newSelectedSourcesOf (localSources l) in
  let hasCategoryChange :=
    negb (String.eqb newCategory (SearchContext.selectedCategory (search app))) in
  let hasDateChange :=
    negb (String.eqb (SearchContext.fromDate newDateRange)
            (SearchContext.fromDate (SearchContext.dateRange (search app))))
    || negb (String.eqb (SearchContext.toDate newDateRange)
               (SearchContext.toDate (SearchContext.dateRange (search app)))) in
  let app' :=
    if hasCategoryChange || hasDateChange
       || hasSourceChange newSelectedSources (selectedSources app)
    then
      {| search :=
           SearchContext.executeSearch
             (SearchContext.setDateRange newDateRange
                (SearchContext.setSelectedCategory newCategory (search app)));
         selectedSources := newSelectedSources |}
    else app in
  onClose app'.

(** [handleClearFilters]: the form goes back to no dates, no category and
    ["All Sources"], the contexts to all sources, no dates and no category,
    and a search is executed. *)
Definition handleClearFilters (app : App) : Local * App :=
  ({| localDateRange := {| SearchContext.fromDate := ""; SearchContext.toDate := "" |};
      localCategory := "";
      localSources := ["All Sources"] |},
   onClose
     {| search :=
          SearchContext.executeSearch
            (SearchContext.setSelectedCategory ""
               (SearchContext.setDateRange
                  {| SearchContext.fromDate := ""; SearchContext.toDate := "" |}
                  (search app)));
        selectedSources := allSources |}).

End Handlers.

End FilterDrawer.

Lemma forallb_Forall {A} (f : A → bool) (l : list A) :
  forallb f l = true ↔ Forall (λ x, f x = true) l.
Proof.
  induction l as [|x l IH]; simpl.
  - split; [constructor | done].
  - rewrite andb_true_iff, IH, Forall_cons. done.
Qed.

Lemma elem_of_allSources src :
  src ∈ allSources ↔ src = "newsapi" ∨ src = "guardian" ∨ src = "nytimes".
Proof.
  unfold allSources. rewrite !elem_of_cons, elem_of_nil. tauto.
Qed.

Lemma NoDup_allSources : NoDup allSources.
Proof.
  unfold allSources. repeat constructor; rewrite ?elem_of_cons, ?elem_of_nil;
    intros H; repeat destruct H as [H|H]; done.
Qed.

Lemma hasSourceChange_same selected :
  FilterDrawer.hasSourceChange selected selected = false.
Proof.
  unfold FilterDrawer.hasSourceChange. rewrite Nat.eqb_refl. simpl.
  assert (forallb (λ src, FilterDrawer.includes src selected) selected = true) as ->;
    [|done].
  apply forallb_Forall, Forall_forall. intros src Hsrc.
  by apply bool_decide_eq_true.
Qed.

Lemma sourceId_displayName selected :
  Forall (λ src, src ∈ allSources) selected →
  FilterDrawer.sourceId <$> (FilterDrawer.displayName <$> selected) = selected.
Proof.
  induction 1 as [|src l Hsrc _ IH]; [done|]. rewrite !fmap_cons, IH. f_equal.
  apply elem_of_allSources in Hsrc as [->|[->| ->]]; reflexivity.
Qed.

Lemma displayName_not_all selected :
  FilterDrawer.includes "All Sources" (FilterDrawer.displayName <$> selected) = false.
Proof.
  apply bool_decide_eq_false. intros (src & Hd & _)%list_elem_of_fmap.
  unfold FilterDrawer.displayName in Hd.
  repeat (destruct (String.eqb src _); [discriminate|]). discriminate.
Qed.

Lemma newSelectedSources_roundtrip selected :
  selected ≠ [] → NoDup selected → Forall (λ src, src ∈ allSources) selected →
  FilterDrawer.hasSourceChange
    (FilterDrawer.newSelectedSourcesOf (FilterDrawer.localSourcesOf selected))
    selected = false.
Proof.
  intros Hne Hnodup Hknown. unfold FilterDrawer.localSourcesOf.
  destruct (bool_decide (length selected = 0%nat) || _) eqn:Hall.
  - unfold FilterDrawer.newSelectedSourcesOf.
    assert (FilterDrawer.includes "All Sources" ["All Sources"] = true) as ->
      by (apply bool_decide_eq_true; constructor).
    apply orb_true_iff in Hall as [Hlen|Hall].
    { apply bool_decide_eq_true in Hlen. by destruct selected. }
    apply andb_true_iff in Hall as [[H1 H2]%andb_true_iff H3].
    assert (allSources ≡ₚ selected) as Hperm.
    { apply NoDup_Permutation; [apply NoDup_allSources | done |].
      intros src. rewrite elem_of_allSources.
      unfold FilterDrawer.includes in *.
      apply bool_decide_eq_true in H1, H2, H3. split.
      - intros [->|[->| ->]]; done.
      - intros Hsrc. rewrite Forall_forall in Hknown.
        by apply elem_of_allSources, Hknown. }
    unfold FilterDrawer.hasSourceChange.
    apply orb_false_iff; split; [apply orb_false_iff; split|];
      apply negb_false_iff.
    + apply Nat.eqb_eq, (Permutation_length Hperm).
    + apply forallb_Forall. unfold allSources. by repeat constructor.
    + apply forallb_Forall. eapply Forall_impl; [exact Hknown|].
      intros src Hsrc. by apply bool_decide_eq_true.
  - unfold FilterDrawer.newSelectedSourcesOf.
    rewrite displayName_not_all, sourceId_displayName by done.
    apply hasSourceChange_same.
Qed.

(** X12.  Applying the filter form as the drawer shows it changes nothing:
    for a selection of known sources, none twice and at least one, the
    display names map back to the same selection, no change is seen, the
    contexts stay as they are and no search is executed. *)
Theorem apply_unchanged_filters_is_noop onClose app :
  FilterDrawer.selectedSources app ≠ [] →
  NoDup (FilterDrawer.selectedSources app) →
  Forall (λ src, src ∈ allSources) (FilterDrawer.selectedSources app) →
  FilterDrawer.handleApplyFilters onClose (FilterDrawer.syncLocal app) app
  = onClose app.
Proof.
  intros Hne Hnodup Hknown.
  unfold FilterDrawer.handleApplyFilters, FilterDrawer.syncLocal. cbv zeta.
  cbn [FilterDrawer.localSources FilterDrawer.localCategory
       FilterDrawer.localDateRange].
  rewrite newSelectedSources_roundtrip by done.
  cbn [SearchContext.fromDate SearchContext.toDate].
  assert (JS.or_default (Some (SearchContext.selectedCategory (FilterDrawer.search app))) ""
          = SearchContext.selectedCategory (FilterDrawer.search app)) as ->.
  { by destruct (SearchContext.selectedCategory _). }
  by rewrite !String.eqb_refl.
Qed.

Lemma apply_unchanged_filters_is_noop_witness :
  FilterDrawer.handleApplyFilters (λ app, app)
    (FilterDrawer.syncLocal
       {| FilterDrawer.search := SearchContext.initial;
          FilterDrawer.selectedSources := ["nytimes"; "newsapi"] |})
    {| FilterDrawer.search := SearchContext.initial;
       FilterDrawer.selectedSources := ["nytimes"; "newsapi"] |}
  = {| FilterDrawer.search := SearchContext.initial;
       FilterDrawer.selectedSources := ["nytimes"; "newsapi"] |}.
Proof.
  apply (apply_unchanged_filters_is_noop (λ app, app)
           {| FilterDrawer.search := SearchContext.initial;
              FilterDrawer.selectedSources := ["nytimes"; "newsapi"] |}).
  - discriminate.
  - simpl. repeat constructor; rewrite ?elem_of_cons, ?elem_of_nil;
      intros H; repeat destruct H as [H|H]; done.
  - simpl. repeat constructor; apply elem_of_allSources; auto.
Defined.

(** An empty selection does not come back: the form shows ["All
    Sources"], and applying it selects the three sources and executes a
    search. *)
Example apply_filters_on_empty_selection :
  FilterDrawer.handleApplyFilters (λ app, app)
    (FilterDrawer.syncLocal
       {| FilterDrawer.search := SearchContext.initial;
          FilterDrawer.selectedSources := [] |})
    {| FilterDrawer.search := SearchContext.initial;
       FilterDrawer.selectedSources := [] |}
  = {| FilterDrawer.search := SearchContext.executeSearch SearchContext.initial;
       FilterDrawer.selectedSources := allSources |}.
Proof. reflexivity. Qed.

(** X13.  [handleClearFilters] resets sources, dates and category but not
    the query, and executes a search: through [NewsFeed] the next fetch is
    a search over the three sources with the trimmed query when that is not
    blank, and the top headlines (no category) when it is. *)
Theorem clear_filters_keeps_query env net getTime trim app :
  let app' := snd (FilterDrawer.handleClearFilters (λ app, app) app) in
  FilterDrawer.selectedSources app' = allSources
  ∧ SearchContext.searchQuery (FilterDrawer.search app')
    = SearchContext.searchQuery (FilterDrawer.search app)
  ∧ queryFn env net getTime allSources (feedFilters trim (FilterDrawer.search app'))
    = (if JS.nonempty (trim (SearchContext.searchQuery (FilterDrawer.search app)))
       then searchAllNews env net getTime allSources
              {| searchQuery :=
                   Some (trim (SearchContext.searchQuery (FilterDrawer.search app)));
                 category := Some ""; fromDate := Some ""; toDate := Some "";
                 author_filter := None |}
       else getTopHeadlines env net getTime allSources (Some "")).
Proof.
  cbv zeta. simpl. split; [done|]. split; [done|].
  unfold queryFn, feedFilters, isSearching. simpl. rewrite !truthy_js_or. simpl.
  by destruct (trim _).
Qed.

(** ** The personalization drawer: preferences and handlers *)

Module PersonalizeDrawer.

Record UserPreferences := {
  categories : list string;
  authorFilter : string;
  sources : list string;
}.

(** [sourceOptions]: display name and source id. *)
Definition sourceOptions : list (string * NewsSource) :=
  [("NewsAPI", "newsapi"); ("The Guardian", "guardian");
   ("New York Times", "nytimes")].

(** The state of the component. *)
Record Drawer := {
  preferences : UserPreferences;
  applyImmediately : bool;
}.

(** What the handlers touch outside the component: the two contexts, the
    local store, and the [authorFilterChanged] events dispatched on the
    document (their [authorFilter], oldest first). *)
Record App := {
  search : SearchContext.State;
  selectedSources : list NewsSource;
  localStorage : gmap string string;
  authorFilterChanged : list string;
}.

Inductive PrefType := Categories | Sources.

Definition field (type : PrefType) (prefs : UserPreferences) : list string :=
  match type with
  | Categories => categories prefs
  | Sources => sources prefs
  end.

Definition setField (type : PrefType) (l : list string) (prefs : UserPreferences)
  : UserPreferences :=
  match type with
  | Categories =>
      {| categories := l; authorFilter := authorFilter prefs; sources := sources prefs |}
  | Sources =>
      {| categories := categories prefs; authorFilter := authorFilter prefs;
         sources := l |}
  end.

(** The object [JSON.stringify] is given for the preferences. *)
Definition toJSON (prefs : UserPreferences) : JSON :=
  JObject {[ "categories" := JArray (JString <$> categories prefs);
             "authorFilter" := JString (authorFilter prefs);
             "sources" := JArray (JString <$> sources prefs) ]}.

(** [sourceOptions.find(s => s.display === displayName)], then its value. *)
Definition sourceOf (displayName : string) : option NewsSource :=
  snd <$> List.find (λ s, String.eqb (fst s) displayName) sourceOptions.

Definition applyPreferences (prefs : UserPreferences) (app : App) : App :=
  let search1 :=
    match categories prefs with
    | c :: _ => SearchContext.setSelectedCategory c (search app)
    | [] => search app
    end in
  let selected :=
    match sources prefs with
    | _ :: _ =>
        let sourceIds := omap sourceOf (sources prefs) in
        match sourceIds with
        | _ :: _ => sourceIds
        | [] => allSources
        end
    | [] => allSources
    end in
  {| search := SearchContext.executeSearch search1;
     selectedSources := selected;
     localStorage := localStorage app;
     authorFilterChanged := authorFilterChanged app ++ [authorFilter prefs] |}.

Definition handleAuthorFilterChange (value : string) (d : Drawer) (app : App)
  : Drawer * App :=
  let updatedPreferences :=
    {| categories := categories (preferences d); authorFilter := value;
       sources := sources (preferences d) |} in
  ({| preferences := updatedPreferences; applyImmediately := applyImmediately d |},
   if applyImmediately d then applyPreferences updatedPreferences app else app).

Definition handlePreferenceChange (type : PrefType) (value : string) (checked : bool)
  (d : Drawer) (app : App) : Drawer * App :=
  let updatedPreferences :=
    setField type
      (if checked then field type (preferences d) ++ [value]
       else filter (λ item, item ≠ value) (field type (preferences d)))
      (preferences d) in
  ({| preferences := updatedPreferences; applyImmediately := applyImmediately d |},
   if applyImmediately d then applyPreferences updatedPreferences app else app).

Section Handlers.

(** [JSON.stringify], and the [onClose] of the props. *)
Context (JSON_stringify : JSON → string) (onClose : App → App).

Definition handleSave (d : Drawer) (app : App) : App :=
  let stored :=
    <["applyImmediately" := JSON_stringify (JBool (applyImmediately d))]>
      (<["newsHubPreferences" := JSON_stringify (toJSON (preferences d))]>
         (localStorage app)) in
  onClose
    (applyPreferences (preferences d)
       {| search := search app; selectedSources := selectedSources app;
          localStorage := stored; authorFilterChanged := authorFilterChanged app |}).

Definition handleReset (d : Drawer) (app : App) : Drawer * App :=
  ({| preferences := {| categories := []; authorFilter := ""; sources := [] |};
      applyImmediately := applyImmediately d |},
   {| search :=
        SearchContext.executeSearch
          (SearchContext.setSelectedCategory "" (search app));
      selectedSources := allSources;
      localStorage := delete "newsHubPreferences" (localStorage app);
      authorFilterChanged := authorFilterChanged app ++ [""] |}).

End Handlers.

End PersonalizeDrawer.

(** X14.  A checkbox of the drawer and its list agree: after
    [handlePreferenceChange] with [checked] the value is in the list, after
    one without it is not (every copy of it is removed), the other values
    stay as they were, and so do the other list and the author filter.
    With "apply immediately" off nothing outside the drawer changes. *)
Theorem preference_toggle_matches_checkbox type value checked d app :
  let d' := fst (PersonalizeDrawer.handlePreferenceChange type value checked d app) in
  let app' := snd (PersonalizeDrawer.handlePreferenceChange type value checked d app) in
  let before := PersonalizeDrawer.field type (PersonalizeDrawer.preferences d) in
  let after := PersonalizeDrawer.field type (PersonalizeDrawer.preferences d') in
  (value ∈ after ↔ checked = true)
  ∧ (∀ other, other ≠ value → (other ∈ after ↔ other ∈ before))
  ∧ (∀ type', type' ≠ type →
       PersonalizeDrawer.field type' (PersonalizeDrawer.preferences d')
       = PersonalizeDrawer.field type' (PersonalizeDrawer.preferences d))
  ∧ PersonalizeDrawer.authorFilter (PersonalizeDrawer.preferences d')
    = PersonalizeDrawer.authorFilter (PersonalizeDrawer.preferences d)
  ∧ PersonalizeDrawer.applyImmediately d' = PersonalizeDrawer.applyImmediately d
  ∧ (PersonalizeDrawer.applyImmediately d = false → app' = app).
Proof.
  cbv zeta. unfold PersonalizeDrawer.handlePreferenceChange. simpl.
  set (l := PersonalizeDrawer.field type (PersonalizeDrawer.preferences d)).
  assert (∀ l', PersonalizeDrawer.field type
                  (PersonalizeDrawer.setField type l' (PersonalizeDrawer.preferences d))
                = l') as Hfield by (intros; by destruct type).
  rewrite Hfield. repeat split.
  - destruct checked; [done|]. by intros [Hne _]%list_elem_of_filter.
  - intros ->. apply elem_of_app. right. constructor.
  - destruct checked.
    + intros [?|Hv%list_elem_of_singleton]%elem_of_app; done.
    + by intros [_ ?]%list_elem_of_filter.
  - intros Hother. destruct checked.
    + apply elem_of_app. by left.
    + by apply list_elem_of_filter.
  - intros type' Hne. by destruct type, type'.
  - by destruct type.
  - by intros ->.
Qed.

Lemma sourceOf_known displayName src :
  PersonalizeDrawer.sourceOf displayName = Some src → src ∈ allSources.
Proof.
  unfold PersonalizeDrawer.sourceOf, PersonalizeDrawer.sourceOptions.
  cbn [List.find fst].
  repeat (destruct (String.eqb _ displayName);
          [intros [= <-]; apply elem_of_allSources; auto|]).
  done.
Qed.

(** X15.  [applyPreferences] never leaves the selection empty or with an
    unknown source: it selects the source ids of the preferred display
    names that [sourceOptions] knows, in their order, and all three sources
    when there is none.  It also sets the search flag, dispatches the
    author filter, and leaves the local store alone. *)
Theorem apply_preferences_selects_known_sources prefs app :
  let app' := PersonalizeDrawer.applyPreferences prefs app in
  PersonalizeDrawer.selectedSources app' ≠ []
  ∧ Forall (λ src, src ∈ allSources) (PersonalizeDrawer.selectedSources app')
  ∧ PersonalizeDrawer.selectedSources app'
    = (if bool_decide
            (omap PersonalizeDrawer.sourceOf (PersonalizeDrawer.sources prefs) = [])
       then allSources
       else omap PersonalizeDrawer.sourceOf (PersonalizeDrawer.sources prefs))
  ∧ SearchContext.isSearching (PersonalizeDrawer.search app') = true
  ∧ PersonalizeDrawer.authorFilterChanged app'
    = PersonalizeDrawer.authorFilterChanged app
      ++ [PersonalizeDrawer.authorFilter prefs]
  ∧ PersonalizeDrawer.localStorage app' = PersonalizeDrawer.localStorage app.
Proof.
  cbv zeta. unfold PersonalizeDrawer.applyPreferences.
  cbn [PersonalizeDrawer.selectedSources PersonalizeDrawer.search
       PersonalizeDrawer.authorFilterChanged PersonalizeDrawer.localStorage].
  assert (∀ l : list NewsSource,
            match l with _ :: _ => l | [] => allSources end
            = if bool_decide (l = []) then allSources else l) as Hif
    by (by intros [|? ?]).
  assert (match PersonalizeDrawer.sources prefs with
          | _ :: _ =>
              match omap PersonalizeDrawer.sourceOf (PersonalizeDrawer.sources prefs) with
              | _ :: _ => omap PersonalizeDrawer.sourceOf (PersonalizeDrawer.sources prefs)
              | [] => allSources
              end
          | [] => allSources
          end
          = if bool_decide
                 (omap PersonalizeDrawer.sourceOf (PersonalizeDrawer.sources prefs) = [])
            then allSources
            else omap PersonalizeDrawer.sourceOf (PersonalizeDrawer.sources prefs)) as ->.
  { destruct (PersonalizeDrawer.sources prefs); [done | apply Hif]. }
  split; [|split; [|by repeat split]].
  - case_bool_decide; done.
  - case_bool_decide.
    + apply Forall_forall. intros src Hsrc. exact Hsrc.
    + apply Forall_forall. intros src (name & _ & Hname)%list_elem_of_omap.
      by eapply sourceOf_known.
Qed.

(** The display names of [sourceOptions] map to the three sources; the
    names of the filter drawer do not all: ["BBC"] is unknown here. *)
Example apply_preferences_sources :
  PersonalizeDrawer.selectedSources
    (PersonalizeDrawer.applyPreferences
       {| PersonalizeDrawer.categories := ["Technology"];
          PersonalizeDrawer.authorFilter := "";
          PersonalizeDrawer.sources := ["New York Times"; "BBC"; "NewsAPI"] |}
       {| PersonalizeDrawer.search := SearchContext.initial;
          PersonalizeDrawer.selectedSources := allSources;
          PersonalizeDrawer.localStorage := ∅;
          PersonalizeDrawer.authorFilterChanged := [] |})
  = ["nytimes"; "newsapi"].
Proof. reflexivity. Qed.

(** ** Saving, resetting and loading the preferences *)

Lemma toJSON_no_authors prefs :
  migrate (PersonalizeDrawer.toJSON prefs) = Fulfilled (PersonalizeDrawer.toJSON prefs).
Proof. reflexivity. Qed.

Lemma loadPreferences_stored JSON_parse (storage : gmap string string) st
    saved flagText parsed flag :
  storage !! "newsHubPreferences" = Some saved → saved ≠ "" →
  JSON_parse saved = Some parsed →
  migrate parsed = Fulfilled parsed →
  storage !! "applyImmediately" = Some flagText → flagText ≠ "" →
  JSON_parse flagText = Some flag →
  loadPreferences JSON_parse true storage st
  = Fulfilled {| preferences := parsed; applyImmediately := flag |}.
Proof.
  intros Hsaved Hne Hparsed Hmigrate Hflag Hne' Hparsed'.
  unfold loadPreferences. rewrite Hsaved, Hflag.
  destruct saved as [|c s]; [done|]. destruct flagText as [|c' s']; [done|].
  by rewrite Hparsed, Hmigrate, Hparsed'.
Qed.

(** X16.  What [handleSave] stores, the drawer loads back when it is
    opened again: the preferences as the object of their three fields and
    the "apply immediately" flag, given that [JSON.parse] reads back what
    [JSON.stringify] wrote for the two and that [onClose] leaves the local
    store alone. *)
Theorem saved_preferences_load_back JSON_parse JSON_stringify onClose d app st :
  let prefs := PersonalizeDrawer.toJSON (PersonalizeDrawer.preferences d) in
  let flag := JBool (PersonalizeDrawer.applyImmediately d) in
  JSON_parse (JSON_stringify prefs) = Some prefs →
  JSON_stringify prefs ≠ "" →
  JSON_parse (JSON_stringify flag) = Some flag →
  JSON_stringify flag ≠ "" →
  (∀ a, PersonalizeDrawer.localStorage (onClose a) = PersonalizeDrawer.localStorage a) →
  loadPreferences JSON_parse true
    (PersonalizeDrawer.localStorage
       (PersonalizeDrawer.handleSave JSON_stringify onClose d app)) st
  = Fulfilled {| preferences := prefs; applyImmediately := flag |}.
Proof.
  cbv zeta. intros Hprefs Hne Hflag Hne' Hclose.
  unfold PersonalizeDrawer.handleSave. rewrite Hclose.
  unfold PersonalizeDrawer.applyPreferences.
  cbn [PersonalizeDrawer.localStorage].
  apply (loadPreferences_stored _ _ _
           (JSON_stringify (PersonalizeDrawer.toJSON (PersonalizeDrawer.preferences d)))
           (JSON_stringify (JBool (PersonalizeDrawer.applyImmediately d))));
    try done.
  - rewrite lookup_insert_ne by done. apply lookup_insert_eq.
  - apply lookup_insert_eq.
Qed.

Definition samplePreferences : PersonalizeDrawer.UserPreferences :=
  {| PersonalizeDrawer.categories := ["Technology"];
     PersonalizeDrawer.authorFilter := "Jane Doe";
     PersonalizeDrawer.sources := ["The Guardian"] |}.

(** The text of [samplePreferences]. *)
Definition samplePreferencesText : string :=
  "{" +:+ dquote +:+ "categories" +:+ dquote +:+ ":[" +:+ dquote +:+ "Technology"
  +:+ dquote +:+ "]," +:+ dquote +:+ "authorFilter" +:+ dquote +:+ ":" +:+ dquote
  +:+ "Jane Doe" +:+ dquote +:+ "," +:+ dquote +:+ "sources" +:+ dquote +:+ ":["
  +:+ dquote +:+ "The Guardian" +:+ dquote +:+ "]}".

(** [JSON.stringify] and [JSON.parse] on the values of the sample. *)
Definition sampleStringify (v : JSON) : string :=
  match v with
  | JBool true => "true"
  | JBool false => "false"
  | JObject _ => samplePreferencesText
  | _ => "null"
  end.

Definition sampleParseBack (s : string) : option JSON :=
  if String.eqb s "true" then Some (JBool true)
  else if String.eqb s "false" then Some (JBool false)
  else if String.eqb s samplePreferencesText
  then Some (PersonalizeDrawer.toJSON samplePreferences)
  else None.

Definition sampleApp : PersonalizeDrawer.App :=
  {| PersonalizeDrawer.search := SearchContext.initial;
     PersonalizeDrawer.selectedSources := allSources;
     PersonalizeDrawer.localStorage := ∅;
     PersonalizeDrawer.authorFilterChanged := [] |}.

Lemma saved_preferences_load_back_witness :
  loadPreferences sampleParseBack true
    (PersonalizeDrawer.localStorage
       (PersonalizeDrawer.handleSave sampleStringify (λ a, a)
          {| PersonalizeDrawer.preferences := samplePreferences;
             PersonalizeDrawer.applyImmediately := true |}
          sampleApp))
    initialDrawer
  = Fulfilled {| preferences := PersonalizeDrawer.toJSON samplePreferences;
                 applyImmediately := JBool true |}.
Proof.
  apply (saved_preferences_load_back sampleParseBack sampleStringify (λ a, a)
           {| PersonalizeDrawer.preferences := samplePreferences;
              PersonalizeDrawer.applyImmediately := true |}
           sampleApp initialDrawer).
  - reflexivity.
  - discriminate.
  - reflexivity.
  - discriminate.
  - reflexivity.
Defined.

(** X17.  After [handleReset] an opened drawer loads no preferences,
    whatever was stored before: the stored preferences are gone, and a load
    reads the "apply immediately" flag only, which the reset leaves in the
    store.  The selection is back to the three sources. *)
Theorem reset_then_load_reads_flag_only JSON_parse d app st :
  let app' := snd (PersonalizeDrawer.handleReset d app) in
  PersonalizeDrawer.localStorage app' !! "newsHubPreferences" = None
  ∧ PersonalizeDrawer.localStorage app' !! "applyImmediately"
    = PersonalizeDrawer.localStorage app !! "applyImmediately"
  ∧ PersonalizeDrawer.selectedSources app' = allSources
  ∧ loadPreferences JSON_parse true (PersonalizeDrawer.localStorage app') st
    = match PersonalizeDrawer.localStorage app !! "applyImmediately" with
      | Some (String c s) =>
          match JSON_parse (String c s) with
          | Some flag =>
              Fulfilled {| preferences := preferences st; applyImmediately := flag |}
          | None => Rejected SyntaxError
          end
      | _ => Fulfilled st
      end.
Proof.
  cbv zeta. unfold PersonalizeDrawer.handleReset.
  cbn [snd PersonalizeDrawer.localStorage PersonalizeDrawer.selectedSources].
  split; [apply lookup_delete_eq|]. split; [by rewrite lookup_delete_ne|].
  split; [done|].
  unfold loadPreferences. rewrite lookup_delete_eq, lookup_delete_ne by done.
  reflexivity.
Qed.

(** X18.  The migration is idempotent: a value it returns it leaves as it
    is.  In particular a loaded record, stored again as it is, loads the
    same. *)
Theorem migrate_idempotent parsed parsed' :
  migrate parsed = Fulfilled parsed' → migrate parsed' = Fulfilled parsed'.
Proof.
  destruct parsed as [|b|n|s|xs|props]; simpl; try (by intros [= <-]).
  destruct (props !! "authors") as [[|b|n|s|xs|props']|] eqn:Hauthors;
    intros [= <-]; simpl; rewrite ?Hauthors; try done.
  by rewrite lookup_delete_eq.
Qed.

Lemma migrate_idempotent_witness :
  migrate (JObject {[ "authorFilter" := JString "Jane Doe" ]})
  = Fulfilled (JObject {[ "authorFilter" := JString "Jane Doe" ]}).
Proof.
  apply (migrate_idempotent (JObject {[ "authors" := JArray [JString "Jane Doe"] ]})).
  vm_compute. reflexivity.
Defined.

(** X19.  What the loader cannot read makes the effect throw, whatever
    else is stored: stored text that is no JSON gives a [SyntaxError],
    stored text that parses to [null] a [TypeError] (the migration reads a
    property of it); the "apply immediately" entry is not reached. *)
Theorem load_rejects_unreadable_preferences JSON_parse
    (storage : gmap string string) st saved :
  storage !! "newsHubPreferences" = Some saved →
  saved ≠ "" →
  JSON_parse saved = None ∨ JSON_parse saved = Some JNull →
  loadPreferences JSON_parse true storage st
  = Rejected (match JSON_parse saved with
              | None => SyntaxError
              | Some _ => TypeError
              end).
Proof.
  intros Hsaved Hne Hparse. unfold loadPreferences. rewrite Hsaved.
  destruct saved as [|c s]; [done|]. by destruct Hparse as [-> | ->].
Qed.

(** The stored text [null] parses to [null]: the effect throws a
    [TypeError], though the stored setting is fine. *)
Lemma load_rejects_unreadable_preferences_witness :
  loadPreferences sampleParse true
    {[ "newsHubPreferences" := "null"; "applyImmediately" := "true" ]} initialDrawer
  = Rejected TypeError.
Proof.
  apply (load_rejects_unreadable_preferences sampleParse
           {[ "newsHubPreferences" := "null"; "applyImmediately" := "true" ]}
           initialDrawer "null").
  - reflexivity.
  - discriminate.
  - right. reflexivity.
Defined.

(** Stored text that is no JSON: the effect throws a [SyntaxError]. *)
Example load_broken_text_throws :
  sampleParse "{oops" = None
  ∧ loadPreferences sampleParse true
      {[ "newsHubPreferences" := "{oops"; "applyImmediately" := "true" ]} initialDrawer
    = Rejected SyntaxError.
Proof. split; vm_compute; reflexivity. Qed.

(** ** The news card: [timeAgo] *)

From stdpp Require Import pretty.

Local Open Scope string_scope.
Local Open Scope list_scope.
Local Open Scope Z_scope.

Module NewsCard.

(** A JavaScript number that is an integer or [NaN] ([None]). *)
Definition number := option Z.

(** [x < n] and [x > n] for a literal [n]; false for [NaN]. *)
Definition lt (x : number) (n : Z) : bool :=
  match x with
  | Some v => v <? n
  | None => false
  end.

Definition gt (x : number) (n : Z) : bool :=
  match x with
  | Some v => n <? v
  | None => false
  end.

(** [Math.floor(x / n)] for a literal [n > 0].  The time values are
    integers; for spans below 2^52 milliseconds the floor of the quotient
    computed in doubles is the floor of the exact quotient. *)
Definition floorDiv (x : number) (n : Z) : number := (λ v, v / n) <$> x.

(** A number in a template literal. *)
Definition show (x : number) : string :=
  match x with
  | Some v => pretty v
  | None => "NaN"
  end.

(** [timeAgo(date)], with [now] the time value of [new Date()] and
    [published] the one of [new Date(date)]. *)
Definition timeAgo (now : Z) (published : number) : string :=
  let diffInSeconds := floorDiv ((λ p, now - p) <$> published) 1000 in
  if lt diffInSeconds 60 then "less than a minute ago"
  else if lt diffInSeconds 3600 then
    let minutes := floorDiv diffInSeconds 60 in
    show minutes +:+ " minute" +:+ (if gt minutes 1 then "s" else "") +:+ " ago"
  else if lt diffInSeconds 86400 then
    let hours := floorDiv diffInSeconds 3600 in
    show hours +:+ " hour" +:+ (if gt hours 1 then "s" else "") +:+ " ago"
  else
    let days := floorDiv diffInSeconds 86400 in
    show days +:+ " day" +:+ (if gt days 1 then "s" else "") +:+ " ago".

End NewsCard.

(** X20.  The text [timeAgo] shows.  For a date in the future or less than
    a minute old it is "less than a minute ago".  Otherwise it is a count
    of whole minutes (1 to 59), hours (1 to 23) or days (1 or more) with
    the unit in the singular exactly for a count of 1; a count of 0 is
    never shown.  For a [publishedAt] that is no date it is "NaN day
    ago". *)
Theorem timeAgo_text now t :
  let d := (now - t) / 1000 in
  (now ≤ t → NewsCard.timeAgo now (Some t) = "less than a minute ago")
  ∧ (d < 60 → NewsCard.timeAgo now (Some t) = "less than a minute ago")
  ∧ (60 ≤ d →
     ∃ n unit,
       NewsCard.timeAgo now (Some t)
       = pretty n +:+ " " +:+ unit +:+ (if decide (n = 1) then "" else "s") +:+ " ago"
       ∧ 1 ≤ n
       ∧ ((unit = "minute" ∧ n = d / 60 ∧ n ≤ 59 ∧ d < 3600)
          ∨ (unit = "hour" ∧ n = d / 3600 ∧ n ≤ 23 ∧ 3600 ≤ d < 86400)
          ∨ (unit = "day" ∧ n = d / 86400 ∧ 86400 ≤ d)))
  ∧ NewsCard.timeAgo now None = "NaN day ago".
Proof.
  cbv zeta. unfold NewsCard.timeAgo. cbn [fmap option_fmap option_map
    NewsCard.floorDiv NewsCard.lt NewsCard.gt NewsCard.show].
  set (d := (now - t) / 1000).
  assert (∀ n unit,
            pretty n +:+ " " +:+ unit +:+ (if decide (n = 1) then "" else "s") +:+ " ago"
            = pretty n +:+ " " +:+ unit +:+ (if 1 <? n then "s" else "") +:+ " ago"
            ∨ n < 1) as Hplural.
  { intros n unit. destruct (Z.ltb_spec 1 n), (decide (n = 1)); auto; lia. }
  split; [|split; [|split; [|reflexivity]]].
  - intros Hfuture.
    assert (d < 60) as Hd by (unfold d; apply Z.div_lt_upper_bound; lia).
    apply Z.ltb_lt in Hd. by rewrite Hd.
  - intros Hd. apply Z.ltb_lt in Hd. by rewrite Hd.
  - intros Hd.
    assert ((d <? 60) = false) as -> by (apply Z.ltb_ge; lia).
    destruct (Z.ltb_spec d 3600) as [Hm|Hm];
      [|destruct (Z.ltb_spec d 86400) as [Hh|Hh]].
    + exists (d / 60), "minute".
      assert (1 ≤ d / 60) by (apply Z.div_le_lower_bound; lia).
      assert (d / 60 ≤ 59)
        by (apply Z.lt_succ_r, Z.div_lt_upper_bound; lia).
      split; [|split; [done|]; left; done].
      destruct (Hplural (d / 60) "minute") as [->|?]; [reflexivity | lia].
    + exists (d / 3600), "hour".
      assert (1 ≤ d / 3600) by (apply Z.div_le_lower_bound; lia).
      assert (d / 3600 ≤ 23)
        by (apply Z.lt_succ_r, Z.div_lt_upper_bound; lia).
      split; [|split; [done|]; right; left; done].
      destruct (Hplural (d / 3600) "hour") as [->|?]; [reflexivity | lia].
    + exists (d / 86400), "day".
      assert (1 ≤ d / 86400) by (apply Z.div_le_lower_bound; lia).
      split; [|split; [done|]; right; right; done].
      destruct (Hplural (d / 86400) "day") as [->|?]; [reflexivity | lia].
Qed.

Example timeAgo_samples :
  NewsCard.timeAgo 1704153600000 (Some 1704067200000) = "1 day ago"
  ∧ NewsCard.timeAgo 1704153600000 (Some 1704146400000) = "2 hours ago"
  ∧ NewsCard.timeAgo 1704153600000 (Some 1704153540000) = "1 minute ago"
  ∧ NewsCard.timeAgo 1704153600000 (Some 1704153600001) = "less than a minute ago".
Proof. repeat split; reflexivity. Qed.

(** ** The heuristic and the source ids of NewsAPI *)

Lemma produced_source_id env net cl x :
  produced env net cl x →
  match cl with
  | newsApiClient => True
  | nytClient => source_id (source x) = "nyt"
  | guardianClient => source_id (source x) = "guardian"
  end.
Proof.
  intros Hx%produced_normalisedFrom.
  destruct cl; [done | destruct Hx as (raw & _ & ->) | destruct Hx as (raw & ->)];
    done.
Qed.

Lemma fulfilled_call_in_articles env net getTime sources filters tr cs c l x :
  calls (snd (queryFn env net getTime sources filters tr)) = calls tr ++ cs →
  (c, Fulfilled l) ∈ cs → x ∈ l →
  x ∈ articles (useCombinedNews env net getTime sources filters true tr)
  ∧ produced env net (clientOf c) x.
Proof.
  intros Hcalls Hin Hx.
  destruct (queryFn_traced env net getTime sources filters tr) as [callOf Hrun].
  destruct (tracedRun_calls env net _ _ _ _ cs Hrun Hcalls) as (rs & _ & _ & Hrec).
  split.
  - unfold useCombinedNews, useMultiSourceNews, useQuery; simpl.
    destruct (queryFn_run env net getTime sources filters tr)
      as (cs' & Hcalls' & -> & _).
    rewrite Hcalls in Hcalls'. apply app_inv_head in Hcalls' as <-. simpl.
    rewrite Array_sort_perm. apply elem_of_concat. exists l. split; [|done].
    apply list_elem_of_fmap. exists (Fulfilled l). split; [done|].
    apply list_elem_of_fmap. by exists (c, Fulfilled l).
  - apply list_elem_of_lookup in Hin as [i Hi].
    destruct (Forall2_lookup_l _ _ _ _ _ Hrec Hi) as (r & _ & _ & Hprod).
    by apply (Hprod l x).
Qed.

(** X21.  With ['newsapi'] selected, [failedSources] contains ['newsapi']
    unless an article of the NewsAPI adapter carries the source id
    ['newsapi']: the adapter labels its articles with the provider's own
    source ids (or ['unknown']), never with its tag. *)
Theorem newsapi_failed_unless_labelled env net getTime sources filters settled tr :
  "newsapi" ∈ sources →
  (∀ x, produced env net newsApiClient x → source_id (source x) ≠ "newsapi") →
  "newsapi" ∈ failedSources (useCombinedNews env net getTime sources filters settled tr).
Proof.
  intros Hsel Hlabel. apply elem_of_failedSourcesOf. split; [done|].
  intros x Hx. apply useCombinedNews_articles in Hx as [cl Hx].
  pose proof (produced_source_id env net cl x Hx) as Hid.
  destruct cl; [by apply Hlabel | by rewrite Hid | by rewrite Hid].
Qed.

Lemma threeSources_newsapi_label x :
  produced sampleEnv threeSources newsApiClient x →
  source_id (source x) = "bbc-news".
Proof.
  intros (n & r & raws & raw & Hnet & Hraw & ->)%produced_newsapi_from_net.
  unfold threeSources, netOf in Hnet. destruct (client r); try discriminate.
  injection Hnet as <-. by apply list_elem_of_singleton in Hraw as ->.
Qed.

Lemma newsapi_failed_unless_labelled_witness :
  "newsapi" ∈
    failedSources
      (useCombinedNews sampleEnv threeSources sampleTime allSources noFilters
         true empty_trace).
Proof.
  apply (newsapi_failed_unless_labelled sampleEnv threeSources sampleTime allSources
           noFilters true empty_trace).
  - apply elem_of_allSources. auto.
  - intros x Hx. by rewrite (threeSources_newsapi_label x Hx).
Defined.

(** X22.  The banner on a fetch in which nothing failed: the three sources
    are selected, a Guardian call of the fetch brought at least one
    article, and NewsAPI labels no article ['newsapi'] or ['nytimes'].
    Then, whatever NewsAPI and the NYT returned, [NewsFeed] shows the
    banner, and it names ['newsapi'] and ['nytimes']. *)
Theorem banner_names_newsapi_and_nytimes env net getTime trim s tr cs c l :
  calls (snd (queryFn env net getTime allSources (feedFilters trim s) tr))
  = calls tr ++ cs →
  (c, Fulfilled l) ∈ cs →
  clientOf c = guardianClient →
  l ≠ [] →
  (∀ x, produced env net newsApiClient x →
        source_id (source x) ≠ "newsapi" ∧ source_id (source x) ≠ "nytimes") →
  NewsFeed env net getTime trim allSources s true tr
  = Feed (Some ["newsapi"; "nytimes"])
      (articles (useCombinedNews env net getTime allSources (feedFilters trim s) true tr))
      None.
Proof.
  intros Hcalls Hin Hclient Hne Hlabel.
  destruct l as [|x l]; [done|]. clear Hne.
  destruct (fulfilled_call_in_articles env net getTime allSources (feedFilters trim s)
              tr cs c (x :: l) x Hcalls Hin) as [Hx Hprod]; [constructor|].
  rewrite Hclient in Hprod. apply produced_source_id in Hprod.
  rewrite NewsFeed_settled. cbv zeta.
  set (r := useCombinedNews env net getTime allSources (feedFilters trim s) true tr)
    in *.
  assert (∀ src, src ≠ "guardian" → src ≠ "nyt" →
            (∀ y, produced env net newsApiClient y → source_id (source y) ≠ src) →
            ∀ y, y ∈ articles r → source_id (source y) ≠ src) as Hothers.
  { intros src Hg Hn Hnews y Hy. apply useCombinedNews_articles in Hy as [cl Hy].
    pose proof (produced_source_id env net cl y Hy) as Hid.
    destruct cl; [by apply Hnews | by rewrite Hid | by rewrite Hid]. }
  assert (failedSources r = ["newsapi"; "nytimes"]) as Hfailed.
  { change (failedSources r) with (failedSourcesOf allSources (articles r)).
    unfold failedSourcesOf, allSources.
    rewrite filter_cons_True, filter_cons_False, filter_cons_True; [done|..].
    - apply (filter_length_zero (λ y, source_id (source y) = "nytimes")).
      apply Hothers; [done..|]. intros y Hy. by apply Hlabel.
    - intros Hzero.
      by apply (proj1 (filter_length_zero
                         (λ y, source_id (source y) = "guardian") (articles r))
                  Hzero x).
    - apply (filter_length_zero (λ y, source_id (source y) = "newsapi")).
      apply Hothers; [done..|]. intros y Hy. by apply Hlabel. }
  assert (hasPartialData r = true) as Hpartial.
  { apply hasPartialDataOf_true. split.
    - intros Hnil. change (articles r) with (default [] (data
        (useMultiSourceNews env net getTime allSources (feedFilters trim s) true tr)))
        in Hx. rewrite Hnil in Hx. by apply elem_of_nil in Hx.
    - exists "guardian". split; [apply elem_of_allSources; auto|].
      change (failedSourcesOf allSources _) with (failedSources r).
      rewrite Hfailed. rewrite !elem_of_cons, elem_of_nil.
      intros [?|[?|?]]; done. }
  rewrite Hpartial, Hfailed.
  assert (bool_decide (length (articles r) = 0%nat) = false) as ->.
  { apply bool_decide_eq_false. intros Hlen.
    destruct (articles r); [by apply elem_of_nil in Hx | done]. }
  reflexivity.
Qed.

(** All three sources answer with articles, and the banner is shown. *)
Lemma banner_names_newsapi_and_nytimes_witness :
  NewsFeed sampleEnv threeSources sampleTime (λ q, q) allSources
    SearchContext.initial true empty_trace
  = Feed (Some ["newsapi"; "nytimes"])
      (articles (useCombinedNews sampleEnv threeSources sampleTime allSources
                   (feedFilters (λ q, q) SearchContext.initial) true empty_trace))
      None.
Proof.
  eapply (banner_names_newsapi_and_nytimes sampleEnv threeSources sampleTime (λ q, q)
            SearchContext.initial empty_trace _
            (CallGuardian None None None None None)
            [normalizeGuardian (guardianRaw "a" "2024-01-01T00:00:00Z");
             normalizeGuardian (guardianRaw "b" "2024-01-02T00:00:00Z")]).
  - vm_compute. reflexivity.
  - apply list_elem_of_lookup. exists 1%nat. reflexivity.
  - reflexivity.
  - discriminate.
  - intros x Hx. by rewrite (threeSources_newsapi_label x Hx).
Defined.

(** ** C2: [nytimes] and the NewsAPI articles of the fetch *)

(** [x] is an article of a fulfilled call, among the calls [cs], to the
    adapter of the client [cl]. *)
Definition fetchedBy (cl : Client)
  (cs : list (AdapterCall * Outcome (list NewsArticle))) (x : NewsArticle) : Prop :=
  ∃ c l, (c, Fulfilled l) ∈ cs ∧ clientOf c = cl ∧ x ∈ l.

(** A transport on which NewsAPI labels its article ['nytimes'] only from
    the fourth request on. *)
Definition lateLabel : nat → Request → HttpResult :=
  λ n r,
    match client r with
    | newsApiClient =>
        HttpOk (NewsApiBody
          [newsApiRaw (Some (if (n <? 3)%nat then "bbc-news" else "nytimes"))
             "https://example.org/1" "2024-01-01T00:00:00Z"])
    | nytClient =>
        HttpOk (NYTResultsBody [nytRaw "nyt://article/1" "2024-01-02T00:00:00Z"])
    | guardianClient =>
        HttpOk (GuardianBody [guardianRaw "a" "2024-01-01T00:00:00Z"])
    end.

(** The adapter calls of the fetch on that transport. *)
Definition lateLabelCalls : list (AdapterCall * Outcome (list NewsArticle)) :=
  [ (CallNewsApi None None None None None,
     Fulfilled [normalizeNewsApi
                  (newsApiRaw (Some "bbc-news") "https://example.org/1"
                     "2024-01-01T00:00:00Z")]);
    (CallGuardian None None None None None,
     Fulfilled [normalizeGuardian (guardianRaw "a" "2024-01-01T00:00:00Z")]);
    (CallNYT (Some "all") None None None,
     Fulfilled [normalizeNYT (nytRaw "nyt://article/1" "2024-01-02T00:00:00Z")]) ].

(** Every article shown comes from a fulfilled call of the fetch. *)
Lemma article_of_fetch env net getTime sources filters tr cs x :
  calls (snd (queryFn env net getTime sources filters tr)) = calls tr ++ cs →
  x ∈ articles (useCombinedNews env net getTime sources filters true tr) →
  ∃ cl, fetchedBy cl cs x ∧ produced env net cl x.
Proof.
  intros Hcalls.
  destruct (queryFn_traced env net getTime sources filters tr) as [callOf Hrun].
  destruct (tracedRun_calls env net _ _ _ _ cs Hrun Hcalls) as (rs & _ & _ & Hrec).
  unfold useCombinedNews, useMultiSourceNews, useQuery; simpl.
  destruct (queryFn_run env net getTime sources filters tr)
    as (cs' & Hcalls' & -> & _).
  rewrite Hcalls in Hcalls'. apply app_inv_head in Hcalls' as <-. simpl.
  rewrite Array_sort_perm.
  intros (l & Hl & Hx)%elem_of_concat.
  apply list_elem_of_fmap in Hl as (o & -> & Ho).
  apply list_elem_of_fmap in Ho as ([c o'] & -> & Hco).
  destruct o' as [l|e]; simpl in Hx; [|by apply elem_of_nil in Hx].
  exists (clientOf c). split; [by exists c, l|].
  apply list_elem_of_lookup in Hco as [i Hi].
  destruct (Forall2_lookup_l _ _ _ _ _ Hrec Hi) as (r & _ & _ & Hprod).
  by apply (Hprod l x).
Qed.

(** C2, amended.  With ['nytimes'] selected, the [failedSources] of a
    settled fetch contains ['nytimes'] exactly when no article of a
    fulfilled NewsAPI call of that fetch carries the source id ['nytimes']
    (that adapter passes the provider's source id on), whatever the NYT and
    the Guardian adapter returned; before the fetch has settled it always
    does.  Every article of [fetchNYTArticles] has the source id ['nyt'] and
    every Guardian article ['guardian']. *)
Theorem nytimes_always_failed env net getTime sources filters tr cs :
  calls (snd (queryFn env net getTime sources filters tr)) = calls tr ++ cs →
  "nytimes" ∈ sources →
  ("nytimes" ∈ failedSources (useCombinedNews env net getTime sources filters true tr)
   ↔ ∀ x, fetchedBy newsApiClient cs x → source_id (source x) ≠ "nytimes")
  ∧ "nytimes" ∈ failedSources (useCombinedNews env net getTime sources filters false tr)
  ∧ (∀ x, produced env net nytClient x → source_id (source x) = "nyt")
  ∧ (∀ x, produced env net guardianClient x → source_id (source x) = "guardian").
Proof.
  intros Hcalls Hsel. split; [|split; [|split]].
  - split.
    + intros Hfailed x (c & l & Hin & Hclient & Hx).
      apply elem_of_failedSourcesOf in Hfailed as [_ Hnone]. apply Hnone.
      by destruct (fulfilled_call_in_articles env net getTime sources filters tr
                     cs c l x Hcalls Hin Hx).
    + intros Hlabel. apply elem_of_failedSourcesOf. split; [done|].
      intros x Hx.
      destruct (article_of_fetch env net getTime sources filters tr cs x Hcalls Hx)
        as (cl & Hfetched & Hprod).
      pose proof (produced_source_id env net cl x Hprod) as Hid.
      destruct cl; [by apply Hlabel | by rewrite Hid | by rewrite Hid].
  - apply elem_of_failedSourcesOf. split; [done|].
    intros x Hx. by apply elem_of_nil in Hx.
  - intros x Hx. by apply (produced_source_id env net nytClient).
  - intros x Hx. by apply (produced_source_id env net guardianClient).
Qed.

(** All three sources answer, the NYT one with an article, and NewsAPI
    labels its article of this fetch ['bbc-news']: [nytimes] is reported as
    failed. *)
Lemma nytimes_always_failed_witness :
  calls (snd (queryFn sampleEnv lateLabel sampleTime allSources noFilters empty_trace))
  = calls empty_trace ++ lateLabelCalls
  ∧ "nytimes" ∈
      failedSources
        (useCombinedNews sampleEnv lateLabel sampleTime allSources noFilters
           true empty_trace).
Proof.
  split; [reflexivity|].
  destruct (nytimes_always_failed sampleEnv lateLabel sampleTime allSources noFilters
              empty_trace lateLabelCalls) as (Hiff & _).
  - reflexivity.
  - apply elem_of_allSources. auto.
  - apply Hiff. intros x (c & l & Hin & Hclient & Hx).
    unfold lateLabelCalls in Hin. rewrite !elem_of_cons, elem_of_nil in Hin.
    destruct Hin as [[= -> ->] | [[= -> ->] | [[= -> ->] | []]]]; try discriminate.
    by apply list_elem_of_singleton in Hx as ->.
Defined.

(** On that transport a later NewsAPI call does produce an article
    labelled ['nytimes']; it is no article of the fetch. *)
Example late_label_not_of_the_fetch :
  (∃ x, produced sampleEnv lateLabel newsApiClient x
        ∧ source_id (source x) = "nytimes")
  ∧ articles (useCombinedNews sampleEnv lateLabel sampleTime allSources noFilters
                true empty_trace)
    = [normalizeNYT (nytRaw "nyt://article/1" "2024-01-02T00:00:00Z");
       normalizeNewsApi (newsApiRaw (Some "bbc-news") "https://example.org/1"
                           "2024-01-01T00:00:00Z");
       normalizeGuardian (guardianRaw "a" "2024-01-01T00:00:00Z")].
Proof.
  split; [|vm_compute; reflexivity].
  exists (normalizeNewsApi (newsApiRaw (Some "nytimes") "https://example.org/1"
                              "2024-01-01T00:00:00Z")).
  split; [|reflexivity].
  set (r := {| client := newsApiClient; endpoint := "/top-headlines"; params := ∅ |}).
  eapply (produced_newsapi _ _ None None None None None
            {| requests := [r; r; r]; calls := [] |});
    [reflexivity | constructor].
Qed.
